(** * Vehicle Supervisor (src/Supervisors/Vehicle/Task.cpp)

    A shallow embedding of the DUNE vehicle supervisor task: the
    [VehicleState] it owns, its message handlers ([consume] overloads), the
    periodic [task] and the helpers they share ([changeMode], [reset],
    [entityError], ...), followed by the properties of the operating-mode
    state machine.

    Conventions of the embedding.
    - Unsigned integers ([uint8_t], [uint16_t], [uint32_t]) are [Z] values;
      the wrap-around of the arithmetic the task performs on them is written
      out where it can occur.
    - [double] quantities (clock readings, timestamps, the calibration time)
      are exact rationals [Q] and arithmetic on them is exact.  The
      single-precision [m_switch_time] holds rationals as well; a clock
      reading stored in it is rounded to single precision first
      ([float_of_double]).
    - A handler is an action on the task: it maps the task to the new task
      and the list of messages it dispatched on the bus, in order.  Log
      output ([err], [war], [inf], [debug], [trace]) is not represented.
    - The clock is an input of every handler invocation: all readings of
      [Clock::get()] (resp. [Clock::getSinceEpoch()]) made while one handler
      runs return the same value. *)

From Stdlib Require Import ZArith QArith Bool List String Ascii Lia.
Import ListNotations.

Local Open Scope string_scope.
Local Open Scope list_scope.
Local Open Scope Z_scope.

(** ** Clock values *)

(** Rounding of the positive rational [n / d] to the nearest number with
    [prec] significant bits, ties to the even significand; [emin] is the
    exponent of the smallest positive number of the format.  [e] is the
    exponent of the leading bit of [n / d] and [k] that of the last bit
    kept. *)
Definition round_pos (prec emin : Z) (n d : positive) : Q :=
  let e0 := Z.log2 (Zpos n) - Z.log2 (Zpos d) in
  let above :=
    if 0 <=? e0 then Zpos d * 2 ^ e0 <=? Zpos n
    else Zpos d <=? Zpos n * 2 ^ (- e0) in
  let e := if above then e0 else e0 - 1 in
  let k := Z.max (e - prec + 1) emin in
  let N := if 0 <=? k then Zpos n else Zpos n * 2 ^ (- k) in
  let D := if 0 <=? k then Zpos d * 2 ^ k else Zpos d in
  let q := N / D in
  let r := N mod D in
  let m := if 2 * r <? D then q
           else if D <? 2 * r then q + 1
           else if Z.even q then q else q + 1 in
  if 0 <=? k then inject_Z (m * 2 ^ k)
  else Qred (Qmake m (Z.to_pos (2 ^ (- k)))).

(** The conversion of a [double] to [float] (IEEE 754 binary32: 24
    significant bits, smallest positive number 2^-149; rounding to nearest,
    the default mode), as the assignment of [Clock::get()] to
    [m_switch_time] performs it.  Far enough beyond the largest [float] the
    conversion gives an infinity, which [Q] does not hold: the function is
    meant for the arguments of [in_float_range]. *)
Definition float_of_double (x : Q) : Q :=
  match Qnum x with
  | Z0 => 0
  | Zpos n => round_pos 24 (-149) n (Qden x)
  | Zneg n => - round_pos 24 (-149) n (Qden x)
  end.

Arguments float_of_double : simpl never.

(** The largest [float], (2^24 - 1) * 2^104. *)
Definition float_max : Q := inject_Z ((2 ^ 24 - 1) * 2 ^ 104).

(** [x] lies between the smallest and the largest [float]: its conversion
    is finite. *)
Definition in_float_range (x : Q) : Prop :=
  (- float_max <= x)%Q /\ (x <= float_max)%Q.

Definition Qltb (x y : Q) : bool := negb (Qle_bool y x).

(** ** IMC enumerations *)

(** [IMC::VehicleState::OperationModeEnum], in the order of [c_state_desc]. *)
Inductive OperationModeEnum : Set :=
| VS_SERVICE | VS_CALIBRATION | VS_ERROR | VS_MANEUVER | VS_EXTERNAL.

Definition OperationModeEnum_eqb (a b : OperationModeEnum) : bool :=
  match a, b with
  | VS_SERVICE, VS_SERVICE | VS_CALIBRATION, VS_CALIBRATION
  | VS_ERROR, VS_ERROR | VS_MANEUVER, VS_MANEUVER
  | VS_EXTERNAL, VS_EXTERNAL => true
  | _, _ => false
  end.

(** [IMC::VehicleCommand::TypeEnum]. *)
Inductive TypeEnum : Set := VC_REQUEST | VC_SUCCESS | VC_IN_PROGRESS | VC_FAILURE.

(** [IMC::VehicleCommand::CommandEnum]: the three commands that
    [c_cmd_desc] describes.  Another value of the [uint8_t] field is not
    represented: on a request it makes the handler read [c_cmd_desc] out of
    bounds, which the language leaves undefined. *)
Inductive CommandEnum : Set :=
| VC_EXEC_MANEUVER | VC_STOP_MANEUVER | VC_CALIBRATE.

(** [IMC::ControlLoops::EnableEnum]. *)
Inductive EnableEnum : Set := CL_DISABLE | CL_ENABLE.

(** [IMC::ManeuverControlState::StateEnum]; [MCS_OTHER] stands for a value
    that none of the cases of the handler's [switch] names. *)
Inductive StateEnum : Set :=
| MCS_EXECUTING | MCS_DONE | MCS_ERROR | MCS_OTHER (raw : Z).

(** [IMC::PlanControl] type and operation. *)
Inductive PCTypeEnum : Set := PC_REQUEST | PC_SUCCESS | PC_FAILURE | PC_IN_PROGRESS.
Inductive PCOpEnum : Set := PC_START | PC_STOP | PC_LOAD | PC_GET.

(** ** Messages *)

(** [IMC::VehicleState]. *)
Record VehicleState : Type := mkVehicleState {
  op_mode : OperationModeEnum;
  error_count : Z;          (* uint8_t *)
  error_ents : string;
  maneuver_type : Z;        (* uint16_t *)
  maneuver_stime : Q;       (* fp64_t *)
  maneuver_eta : Z;         (* uint16_t *)
  control_loops : Z;        (* uint32_t *)
  flags : Z;                (* uint8_t *)
  last_error : string;
  last_error_time : Q       (* fp64_t *)
}.

(** A maneuver message carried inline by a [VehicleCommand]: what the
    supervisor reads of it is its name ([getName]) and its id ([getId]). *)
Record Maneuver : Type := mkManeuver {
  man_name : string;
  man_id : Z                (* uint16_t *)
}.

(** [IMC::VehicleCommand] as received; [vc_maneuver = None] is the null
    inline message. *)
Record VehicleCommand : Type := mkVehicleCommand {
  vc_source : Z;
  vc_source_entity : Z;
  vc_type : TypeEnum;
  vc_request_id : Z;
  vc_command : CommandEnum;
  vc_maneuver : option Maneuver
}.

(** [IMC::VehicleCommand] as sent by [answer] (the member [m_vc_reply]). *)
Record Reply : Type := mkReply {
  r_destination : Z;
  r_destination_entity : Z;
  r_type : TypeEnum;
  r_command : CommandEnum;
  r_request_id : Z;
  r_info : string
}.

Record ControlLoops : Type := mkControlLoops {
  cl_enable : EnableEnum;
  cl_mask : Z               (* uint32_t *)
}.

Record EntityMonitoringState : Type := mkEntityMonitoringState {
  ems_ccount : Z;           (* uint8_t *)
  ems_cnames : string;
  ems_ecount : Z;           (* uint8_t *)
  ems_enames : string;
  ems_last_error : string;
  ems_last_error_time : Q
}.

Record ManeuverControlState : Type := mkManeuverControlState {
  mcs_source : Z;
  mcs_timestamp : Q;
  mcs_state : StateEnum;
  mcs_eta : Z;              (* uint16_t *)
  mcs_info : string
}.

Record PlanControl : Type := mkPlanControl {
  pc_type : PCTypeEnum;
  pc_op : PCOpEnum;
  pc_flags : Z              (* uint16_t *)
}.

(** What the supervisor puts on the bus.  [MManeuver m ts] is the requested
    maneuver payload, stamped [ts] by [dispatch].  The duration of
    [MCalibration] is [None] where the source computes it by a conversion
    that the language leaves undefined. *)
Inductive Msg : Type :=
| MStopManeuver
| MIdleManeuver
| MManeuver (m : Maneuver) (timestamp : Q)
| MVehicleState (vs : VehicleState)
| MVehicleCommand (reply : Reply)
| MCalibration (duration : option Z).

(** ** Task state *)

Record Arguments : Type := mkArguments {
  calibration_time : Q;
  safe_ents : list string
}.

(** Modelled from the spec: [Time::Counter<float>] is not under src/; the
    supervisor's "error timer" is a counter with a top value that [reset]
    restarts at the current clock reading and that overflows once [top]
    seconds have elapsed since. *)
Record Counter : Type := mkCounter {
  c_top : Q;
  c_last : Q
}.

Record Task : Type := mkTask {
  m_switch_time : Q;
  m_in_safe_plan : bool;
  m_err_timer : Counter;
  m_vs : VehicleState;
  m_args : Arguments
}.

(** The clock readings available to one handler invocation. *)
Record Clock : Type := mkClock {
  Clock_get : Q;            (* Clock::get() *)
  Clock_getSinceEpoch : Q   (* Clock::getSinceEpoch() *)
}.

(** Modelled from the spec: [Task::dispatch] (DUNE/Tasks/Task.cpp) is not
    under src/.  A dispatched message carries a wall-clock timestamp: the
    timestamp [getTimeStamp] reads from a message that has just been
    dispatched is the reading of the wall clock. *)
Definition dispatch_timestamp (clk : Clock) : Q := Clock_getSinceEpoch clk.

(** Printing errors period and maneuver request timeout. *)
Definition c_error_period : Q := 2.
Definition c_man_timeout : Q := 1.

(** *** Field updates *)

Definition set_op_mode (v : OperationModeEnum) (s : VehicleState) : VehicleState :=
  match s with
  | mkVehicleState _ ec ee mt ms me cl fl le lt =>
      mkVehicleState v ec ee mt ms me cl fl le lt
  end.
Definition set_error_count (v : Z) (s : VehicleState) : VehicleState :=
  match s with
  | mkVehicleState om _ ee mt ms me cl fl le lt =>
      mkVehicleState om v ee mt ms me cl fl le lt
  end.
Definition set_error_ents (v : string) (s : VehicleState) : VehicleState :=
  match s with
  | mkVehicleState om ec _ mt ms me cl fl le lt =>
      mkVehicleState om ec v mt ms me cl fl le lt
  end.
Definition set_maneuver_type (v : Z) (s : VehicleState) : VehicleState :=
  match s with
  | mkVehicleState om ec ee _ ms me cl fl le lt =>
      mkVehicleState om ec ee v ms me cl fl le lt
  end.
Definition set_maneuver_stime (v : Q) (s : VehicleState) : VehicleState :=
  match s with
  | mkVehicleState om ec ee mt _ me cl fl le lt =>
      mkVehicleState om ec ee mt v me cl fl le lt
  end.
Definition set_maneuver_eta (v : Z) (s : VehicleState) : VehicleState :=
  match s with
  | mkVehicleState om ec ee mt ms _ cl fl le lt =>
      mkVehicleState om ec ee mt ms v cl fl le lt
  end.
Definition set_control_loops (v : Z) (s : VehicleState) : VehicleState :=
  match s with
  | mkVehicleState om ec ee mt ms me _ fl le lt =>
      mkVehicleState om ec ee mt ms me v fl le lt
  end.
Definition set_flags (v : Z) (s : VehicleState) : VehicleState :=
  match s with
  | mkVehicleState om ec ee mt ms me cl _ le lt =>
      mkVehicleState om ec ee mt ms me cl v le lt
  end.
Definition set_last_error (v : string) (s : VehicleState) : VehicleState :=
  match s with
  | mkVehicleState om ec ee mt ms me cl fl _ lt =>
      mkVehicleState om ec ee mt ms me cl fl v lt
  end.
Definition set_last_error_time (v : Q) (s : VehicleState) : VehicleState :=
  match s with
  | mkVehicleState om ec ee mt ms me cl fl le _ =>
      mkVehicleState om ec ee mt ms me cl fl le v
  end.

Definition set_switch_time (v : Q) (t : Task) : Task :=
  match t with
  | mkTask _ sp et vs ar => mkTask v sp et vs ar
  end.
Definition set_in_safe_plan (v : bool) (t : Task) : Task :=
  match t with
  | mkTask sw _ et vs ar => mkTask sw v et vs ar
  end.
Definition set_err_timer (v : Counter) (t : Task) : Task :=
  match t with
  | mkTask sw sp _ vs ar => mkTask sw sp v vs ar
  end.
Definition with_vs (f : VehicleState -> VehicleState) (t : Task) : Task :=
  match t with
  | mkTask sw sp et vs ar => mkTask sw sp et (f vs) ar
  end.

(** ** Handlers as actions

    An action runs on the task and yields the task it leaves together with
    the messages it dispatched. *)

Definition Act : Type := Task -> Task * list Msg.

Definition nop : Act := fun t => (t, []).

Definition andThen (a b : Act) : Act := fun t =>
  let (t1, o1) := a t in
  let (t2, o2) := b t1 in
  (t2, o1 ++ o2).

Definition modify (f : Task -> Task) : Act := fun t => (f t, []).

Definition dispatch (m : Task -> Msg) : Act := fun t => (t, [m t]).

Definition ifA (c : Task -> bool) (a b : Act) : Act := fun t =>
  if c t then a t else b t.

Definition whenA (c : Task -> bool) (a : Act) : Act := ifA c a nop.

Declare Scope act_scope.
Delimit Scope act_scope with act.
Bind Scope act_scope with Act.
Notation "a ;; b" := (andThen a b)
  (at level 61, right associativity) : act_scope.
Local Open Scope act_scope.

(** ** String::split *)

(** Modelled from the spec: [String::split] (DUNE/Utils/String) is not under
    src/.  [error_ents] holds "comma-joined entity names"; splitting it on
    the separator yields the names between the separators, in order, and no
    name for the empty string. *)
Fixpoint split_from (sep : ascii) (cur : string) (s : string) : list string :=
  match s with
  | EmptyString => [cur]
  | String c rest =>
      if Ascii.eqb c sep then cur :: split_from sep "" rest
      else split_from sep (cur ++ String c "")%string rest
  end.

Definition split (s : string) (sep : ascii) : list string :=
  match s with
  | EmptyString => []
  | _ => split_from sep "" s
  end.

(** ** Time::Counter *)

Definition Counter_reset (now : Q) (c : Counter) : Counter :=
  mkCounter (c_top c) now.

Definition Counter_setTop (top now : Q) (c : Counter) : Counter :=
  Counter_reset now (mkCounter top (c_last c)).

Definition Counter_overflow (now : Q) (c : Counter) : bool :=
  Qle_bool (c_last c + c_top c) now.

(** ** The supervisor *)

(** What Task.cpp takes from the IMC message definitions, the message
    factory and its task context; none of it is under src/, and the
    supervisor is defined for any value of these. *)
Record Context : Type := mkContext {
  CL_TELEOPERATION : Z;        (* IMC::CL_TELEOPERATION *)
  CL_NO_OVERRIDE : Z;          (* IMC::CL_NO_OVERRIDE *)
  VFLG_MANEUVER_DONE : Z;      (* IMC::VehicleState::VFLG_MANEUVER_DONE *)
  FLG_IGNORE_ERRORS : Z;       (* IMC::PlanControl::FLG_IGNORE_ERRORS *)
  DUNE_IMC_TELEOPERATION : Z;  (* message id of IMC::Teleoperation *)
  getAbbrevFromId : Z -> string; (* IMC::Factory::getAbbrevFromId *)
  getSystemId : Z              (* Task::getSystemId() *)
}.

Section Supervisor.

Variable ctx : Context.

(** One assignment to a field of [m_vs]. *)
Definition assign (f : VehicleState -> VehicleState) : Act :=
  modify (with_vs f).

(** *** Mode and loop predicates *)

Definition modeIs (mode : OperationModeEnum) (t : Task) : bool :=
  OperationModeEnum_eqb (op_mode (m_vs t)) mode.

Definition serviceMode : Task -> bool := modeIs VS_SERVICE.
Definition maneuverMode : Task -> bool := modeIs VS_MANEUVER.
Definition errorMode : Task -> bool := modeIs VS_ERROR.
Definition externalMode : Task -> bool := modeIs VS_EXTERNAL.
Definition calibrationMode : Task -> bool := modeIs VS_CALIBRATION.

Definition maneuverIs (id : Z) (t : Task) : bool :=
  maneuver_type (m_vs t) =? id.

Definition teleoperationOn : Task -> bool :=
  maneuverIs (DUNE_IMC_TELEOPERATION ctx).

Definition nonOverridableLoops (t : Task) : bool :=
  negb (Z.land (control_loops (m_vs t))
               (Z.lor (CL_TELEOPERATION ctx) (CL_NO_OVERRIDE ctx)) =? 0).

(** *** entityError *)

(** The nested loops of [entityError]: does some name of [ents] compare equal
    to some name of [safe]? *)
Definition anyRelevant (ents safe : list string) : bool :=
  existsb (fun it_ents => existsb (fun it_safe => String.eqb it_ents it_safe) safe)
          ents.

Definition entityError (t : Task) : bool :=
  if negb (error_count (m_vs t) =? 0) then
    if negb (Z.of_nat (List.length (safe_ents (m_args t))) =? 0)
       && m_in_safe_plan t
    then anyRelevant (split (error_ents (m_vs t)) ",") (safe_ents (m_args t))
    else true
  else false.

(** *** reset *)

Definition reset (clk : Clock) : Act :=
  whenA maneuverMode (dispatch (fun _ => MStopManeuver)) ;;
  modify (set_in_safe_plan false) ;;
  modify (fun t => set_err_timer (Counter_reset (Clock_get clk) (m_err_timer t)) t) ;;
  assign (set_control_loops 0) ;;
  dispatch (fun _ => MIdleManeuver).

(** *** changeMode *)

(** [flags &= ~VFLG_MANEUVER_DONE] on the [uint8_t] field. *)
Definition clear_MANEUVER_DONE (v : VehicleState) : VehicleState :=
  set_flags (Z.land (flags v) (Z.lnot (VFLG_MANEUVER_DONE ctx)) mod 256) v.

(** [flags |= VFLG_MANEUVER_DONE] on the [uint8_t] field. *)
Definition set_MANEUVER_DONE (v : VehicleState) : VehicleState :=
  set_flags (Z.lor (flags v) (VFLG_MANEUVER_DONE ctx) mod 256) v.

(** [dispatch(m_vs)]. *)
Definition dispatch_vs : Act := dispatch (fun t => MVehicleState (m_vs t)).

(** [changeMode(s, maneuver)].  [maneuver = None] is the default null
    pointer; the second block dereferences it, and is only entered with a
    payload (see [changeMode_stays_out_of_maneuver]): for the null pointer
    the block is left out of the model. *)
Definition changeMode (s : OperationModeEnum) (maneuver : option Maneuver)
    (clk : Clock) : Act :=
  whenA (fun t => negb (modeIs s t))
    (fun t =>
       let s := if OperationModeEnum_eqb s VS_SERVICE && entityError t
                then VS_ERROR else s in
       (assign (set_op_mode s) ;;
        whenA (fun t => negb (maneuverMode t))
          (assign (set_maneuver_type 0xFFFF) ;;
           assign (set_maneuver_stime (-1)) ;;
           assign (set_maneuver_eta 0xFFFF) ;;
           assign clear_MANEUVER_DONE)) t) ;;
  whenA maneuverMode
    match maneuver with
    | Some m =>
        dispatch (fun _ => MManeuver m (dispatch_timestamp clk)) ;;
        assign (set_maneuver_stime (dispatch_timestamp clk)) ;;
        assign (set_maneuver_type (man_id m)) ;;
        assign (set_maneuver_eta 0xFFFF) ;;
        assign (set_last_error "") ;;
        assign (set_last_error_time (-1)) ;;
        assign clear_MANEUVER_DONE
    | None => nop
    end ;;
  modify (set_switch_time (-1)) ;;
  dispatch_vs.

(** *** Abort *)

Definition consume_Abort (clk : Clock) : Act :=
  assign (set_last_error "got abort request") ;;
  assign (set_last_error_time (Clock_getSinceEpoch clk)) ;;
  whenA (fun t => negb (errorMode t))
    (reset clk ;;
     whenA (fun t => negb (externalMode t) || negb (nonOverridableLoops t))
       (changeMode VS_SERVICE None clk)).

(** *** ControlLoops *)

Definition onEnabledControlLoops (clk : Clock) : Act := fun t =>
  match op_mode (m_vs t) with
  | VS_SERVICE => changeMode VS_EXTERNAL None clk t
  | VS_ERROR =>
      ifA nonOverridableLoops (changeMode VS_EXTERNAL None clk) (reset clk) t
  | _ => nop t
  end.

Definition onDisabledControlLoops (clk : Clock) : Act :=
  whenA externalMode (changeMode VS_SERVICE None clk).

(** [~mask] on a [uint32_t]. *)
Definition not32 (mask : Z) : Z := Z.lnot mask mod 2 ^ 32.

Definition consume_ControlLoops (msg : ControlLoops) (clk : Clock) : Act :=
  fun t =>
  let was := control_loops (m_vs t) in
  match cl_enable msg with
  | CL_ENABLE =>
      (assign (fun v => set_control_loops (Z.lor (control_loops v) (cl_mask msg)) v) ;;
       whenA (fun t => (was =? 0) && negb (control_loops (m_vs t) =? 0))
         (onEnabledControlLoops clk)) t
  | CL_DISABLE =>
      (assign (fun v => set_control_loops
                          (Z.land (control_loops v) (not32 (cl_mask msg))) v) ;;
       whenA (fun t => negb (was =? 0) && (control_loops (m_vs t) =? 0))
         (onDisabledControlLoops clk)) t
  end.

(** *** EntityMonitoringState *)

(** The first half of the handler: record the counts, the last error and
    the names, and restart the error print timer when an error report is
    printed. *)
Definition recordEntityErrors (msg : EntityMonitoringState) (clk : Clock)
    : Act := fun t =>
  let prev_count := error_count (m_vs t) in
  (assign (set_error_count ((ems_ccount msg + ems_ecount msg) mod 256)) ;;
   whenA (fun t => negb (error_count (m_vs t) =? 0)
                   && Qltb (last_error_time (m_vs t)) (ems_last_error_time msg))
     (assign (set_last_error (ems_last_error msg)) ;;
      assign (set_last_error_time (ems_last_error_time msg))) ;;
   assign (set_error_ents "") ;;
   whenA (fun _ => negb (ems_ccount msg =? 0))
     (assign (set_error_ents (ems_cnames msg))) ;;
   whenA (fun _ => negb (ems_ecount msg =? 0))
     (assign (fun v => set_error_ents
        (error_ents v ++
         ((if negb (ems_ccount msg =? 0)%Z then "," else "") ++ ems_enames msg))%string
        v)) ;;
   ifA (fun t => negb (prev_count =? 0) && (error_count (m_vs t) =? 0))
     nop
     (whenA (fun t => negb (prev_count =? error_count (m_vs t))
                      && Counter_overflow (Clock_get clk) (m_err_timer t))
        (modify (fun t => set_err_timer
                   (Counter_reset (Clock_get clk) (m_err_timer t)) t)))) t.

Definition consume_EntityMonitoringState (msg : EntityMonitoringState)
    (clk : Clock) : Act :=
  recordEntityErrors msg clk ;;
  ifA errorMode
    (whenA (fun t => error_count (m_vs t) =? 0)
       (changeMode VS_SERVICE None clk))
    (ifA (fun t => externalMode t || maneuverMode t)
       (whenA (fun t => entityError t && negb (nonOverridableLoops t)
                        && negb (teleoperationOn t))
          (reset clk ;; changeMode VS_ERROR None clk))
       (whenA (fun t => entityError t && negb (calibrationMode t))
          (reset clk ;; changeMode VS_ERROR None clk))).

(** *** ManeuverControlState *)

Definition consume_ManeuverControlState (msg : ManeuverControlState)
    (clk : Clock) : Act :=
  ifA (fun _ => negb (mcs_source msg =? getSystemId ctx)) nop
  (ifA (fun t => negb (maneuverMode t)) nop
   match mcs_state msg with
   | MCS_EXECUTING =>
       whenA (fun t => negb (mcs_eta msg =? maneuver_eta (m_vs t)))
         (assign (set_maneuver_eta (mcs_eta msg)) ;; dispatch_vs)
   | MCS_DONE =>
       assign (set_maneuver_eta 0) ;;
       assign set_MANEUVER_DONE ;;
       dispatch_vs ;;
       modify (set_switch_time (float_of_double (Clock_get clk)))
   | MCS_ERROR =>
       assign (fun v => set_last_error
                 (getAbbrevFromId ctx (maneuver_type v)
                  ++ " maneuver error: " ++ mcs_info msg)%string v) ;;
       assign (set_last_error_time (mcs_timestamp msg)) ;;
       changeMode VS_SERVICE None clk ;;
       reset clk
   | MCS_OTHER _ => nop
   end).

(** *** PlanControl *)

Definition consume_PlanControl (msg : PlanControl) : Act :=
  whenA (fun _ => match pc_type msg, pc_op msg with
                  | PC_REQUEST, PC_START => true
                  | _, _ => false
                  end)
    (ifA (fun _ => negb (Z.land (pc_flags msg) (FLG_IGNORE_ERRORS ctx) =? 0))
       (modify (set_in_safe_plan true))
       (modify (set_in_safe_plan false))).

(** *** VehicleCommand *)

Definition answer (cmd : VehicleCommand) (type : TypeEnum) (desc : string)
    : Act :=
  dispatch (fun _ => MVehicleCommand
    (mkReply (vc_source cmd) (vc_source_entity cmd) type (vc_command cmd)
             (vc_request_id cmd) desc)).

Definition requestOK (cmd : VehicleCommand) (desc : string) : Act :=
  answer cmd VC_SUCCESS desc.

Definition requestFailed (cmd : VehicleCommand) (desc : string) : Act :=
  answer cmd VC_FAILURE desc.

(** [(uint16_t)m_args.calibration_time]: truncation towards zero when the
    truncated value fits 16 bits; the conversion is undefined otherwise. *)
Definition to_uint16 (x : Q) : option Z :=
  let z := Z.quot (Qnum x) (Zpos (Qden x)) in
  if (0 <=? z) && (z <? 2 ^ 16) then Some z else None.

Definition startCalibration (msg : VehicleCommand) (clk : Clock) : Act :=
  ifA externalMode
    (requestFailed msg "cannot calibrate: vehicle is in external mode")
    (whenA maneuverMode (reset clk) ;;
     changeMode VS_CALIBRATION None clk ;;
     dispatch (fun t => MCalibration (to_uint16 (calibration_time (m_args t)))) ;;
     modify (set_switch_time (float_of_double (Clock_get clk))) ;;
     requestOK msg "calibrating vehicle").

Definition startManeuver (cmd : VehicleCommand) (clk : Clock) : Act :=
  match vc_maneuver cmd with
  | None => requestFailed cmd "no maneuver specified"
  | Some m =>
      let mtype := man_name m in
      ifA externalMode
        (requestFailed cmd
           (mtype ++ " maneuver cannot be started in current mode")%string)
        (dispatch (fun _ => MStopManeuver) ;;
         changeMode VS_MANEUVER (Some m) clk ;;
         requestOK cmd (mtype ++ " maneuver started")%string)
  end.

Definition stopManeuver (cmd : VehicleCommand) (clk : Clock) : Act :=
  whenA (fun t => negb (errorMode t))
    (reset clk ;;
     whenA (fun t => negb (externalMode t) || negb (nonOverridableLoops t))
       (changeMode VS_SERVICE None clk)) ;;
  requestOK cmd "OK".

(** The trace line of a request reads [c_cmd_desc] at the command, within
    bounds for the three commands of [CommandEnum]; log output is not
    represented. *)
Definition consume_VehicleCommand (cmd : VehicleCommand) (clk : Clock) : Act :=
  match vc_type cmd with
  | VC_REQUEST =>
      match vc_command cmd with
      | VC_EXEC_MANEUVER => startManeuver cmd clk
      | VC_STOP_MANEUVER => stopManeuver cmd clk
      | VC_CALIBRATE => startCalibration cmd clk
      end
  | _ => nop
  end.

(** *** Periodic task *)

Definition task (clk : Clock) : Act :=
  dispatch_vs ;;
  ifA (fun t => Qltb (m_switch_time t) 0) nop
    (fun t =>
       let delta := (Clock_get clk - m_switch_time t)%Q in
       ifA (fun t => calibrationMode t
                     && Qltb (calibration_time (m_args t)) delta)
         (changeMode VS_SERVICE None clk ;; modify (set_switch_time (-1)))
         (ifA (fun t => maneuverMode t && Qltb c_man_timeout delta)
            (reset clk ;; changeMode VS_SERVICE None clk ;;
             modify (set_switch_time (-1)))
            nop) t).

(** *** Construction and initial state *)

Definition setInitialState : Act :=
  assign (set_op_mode VS_SERVICE) ;;
  assign (set_maneuver_type 0xFFFF) ;;
  assign (set_maneuver_stime (-1)) ;;
  assign (set_maneuver_eta 0xFFFF) ;;
  assign (set_error_ents "") ;;
  assign (set_error_count 0) ;;
  assign (set_flags 0) ;;
  assign (set_last_error "") ;;
  assign (set_last_error_time (-1)) ;;
  assign (set_control_loops 0).

Definition onResourceInitialization (clk : Clock) : Act :=
  setInitialState ;;
  modify (fun t => set_err_timer
            (Counter_setTop c_error_period (Clock_get clk) (m_err_timer t)) t).

(** The task as its constructor leaves it: the timer unarmed, no safe plan,
    a cleared [m_vs], and the configured arguments. *)
Definition Task_new (args : Arguments) : Task :=
  mkTask (-1) false (mkCounter 0 0)
    (mkVehicleState VS_SERVICE 0 "" 0 0 0 0 0 "" 0) args.

(** The state in which the task starts consuming messages. *)
Definition initial (args : Arguments) (clk : Clock) : Task :=
  fst (onResourceInitialization clk (Task_new args)).

(** *** Runs *)

Inductive Event : Type :=
| EvAbort
| EvControlLoops (msg : ControlLoops)
| EvEntityMonitoringState (msg : EntityMonitoringState)
| EvManeuverControlState (msg : ManeuverControlState)
| EvPlanControl (msg : PlanControl)
| EvVehicleCommand (cmd : VehicleCommand)
| EvTick.

(** One handler invocation (or one periodic tick) under the clock [clk]. *)
Definition step (clk : Clock) (ev : Event) : Act :=
  match ev with
  | EvAbort => consume_Abort clk
  | EvControlLoops msg => consume_ControlLoops msg clk
  | EvEntityMonitoringState msg => consume_EntityMonitoringState msg clk
  | EvManeuverControlState msg => consume_ManeuverControlState msg clk
  | EvPlanControl msg => consume_PlanControl msg
  | EvVehicleCommand cmd => consume_VehicleCommand cmd clk
  | EvTick => task clk
  end.

(** The task and the bus after the events of [evs], in order, starting from
    the task [t] and the bus contents [bus]. *)
Fixpoint run (evs : list (Clock * Event)) (t : Task) (bus : list Msg)
    : Task * list Msg :=
  match evs with
  | [] => (t, bus)
  | (clk, ev) :: evs =>
      let (t', out) := step clk ev t in
      run evs t' (bus ++ out)
  end.

End Supervisor.

(** ** A concrete vehicle

    The values below follow the IMC message set (the TELEOPERATION and
    NO_OVERRIDE loop bits, the MANEUVER_DONE and IGNORE_ERRORS flags, the
    ids of Teleoperation and Goto); they serve the concrete runs only, the
    general statements hold for any [Context]. *)

Definition imc : Context :=
  mkContext 0x2 0x80000000 0x1 0x2 452
    (fun id => if id =? 450 then "Goto" else "Maneuver") 1.

(** Ten seconds of calibration, GPS as the only safe entity. *)
Definition gps_args : Arguments := mkArguments 10 ["GPS"].

(** The clocks [now] seconds after boot; the wall clock read 1000000 at
    boot. *)
Definition clock_at (now : Q) : Clock := mkClock now (now + 1000000).

(** The vehicle as it starts consuming messages. *)
Definition booted : Task := initial gps_args (clock_at 0).

Definition Goto : Maneuver := mkManeuver "Goto" 450.

(** A request [command] from system 7, entity 8, with request id 9. *)
Definition request (command : CommandEnum) (maneuver : option Maneuver)
    : VehicleCommand :=
  mkVehicleCommand 7 8 VC_REQUEST 9 command maneuver.

(** ** Vocabulary of the properties *)

(** The reply [answer] sends to the requester of [cmd]. *)
Definition replyTo (cmd : VehicleCommand) (type : TypeEnum) (info : string)
    : Msg :=
  MVehicleCommand
    (mkReply (vc_source cmd) (vc_source_entity cmd) type (vc_command cmd)
             (vc_request_id cmd) info).

(** [res] is the outcome of an accepted maneuver request [cmd] for the
    payload [m]: StopManeuver, the payload, the new state and a SUCCESS
    reply were dispatched, in this order, and the task is in MANEUVER. *)
Definition accepted (cmd : VehicleCommand) (m : Maneuver) (clk : Clock)
    (res : Task * list Msg) : Prop :=
  op_mode (m_vs (fst res)) = VS_MANEUVER /\
  exists info,
    snd res = [MStopManeuver; MManeuver m (dispatch_timestamp clk);
               MVehicleState (m_vs (fst res)); replyTo cmd VC_SUCCESS info].

(** [res] is the outcome of a rejected request [cmd] on the task [t]: the
    task is as it was and only a FAILURE reply was dispatched. *)
Definition rejected (cmd : VehicleCommand) (t : Task)
    (res : Task * list Msg) : Prop :=
  fst res = t /\ exists info, snd res = [replyTo cmd VC_FAILURE info].

(** The booted vehicle after a CALIBRATE request at time 1. *)
Definition calibrating : Task :=
  fst (consume_VehicleCommand imc (request VC_CALIBRATE None) (clock_at 1)
         booted).

(** The booted vehicle after loop 1 (path control) was enabled at time 1. *)
Definition path_controlled : Task :=
  fst (consume_ControlLoops imc (mkControlLoops CL_ENABLE 1) (clock_at 1)
         booted).

(** [control_loops] after [enable(mask)] at [clk1] and then [disable(mask)]
    at [clk2]. *)
Definition enable_disable (ctx : Context) (mask : Z) (clk1 clk2 : Clock)
    (t : Task) : Z :=
  let t1 := fst (consume_ControlLoops ctx (mkControlLoops CL_ENABLE mask) clk1 t) in
  let t2 := fst (consume_ControlLoops ctx (mkControlLoops CL_DISABLE mask) clk2 t1) in
  control_loops (m_vs t2).

(** The condition a processed STOP_MANEUVER leaves the task in: in ERROR, or
    in SERVICE with no loop enabled, no safe plan and the switch timer
    unarmed. *)
Definition settled (t : Task) : Prop :=
  op_mode (m_vs t) = VS_ERROR \/
  (op_mode (m_vs t) = VS_SERVICE /\ control_loops (m_vs t) = 0 /\
   m_in_safe_plan t = false /\ m_switch_time t = (-1)%Q).

(** The booted vehicle after an accepted EXEC_MANEUVER of [Goto] at time 1. *)
Definition maneuvering : Task :=
  fst (consume_VehicleCommand imc (request VC_EXEC_MANEUVER (Some Goto))
         (clock_at 1) booted).

(** An entity report with [count] critical entities named [names], whose
    last error dates from the wall-clock time [time]. *)
Definition critical (count : Z) (names : string) (time : Q)
    : EntityMonitoringState :=
  mkEntityMonitoringState count names 0 "" (names ++ ": failure") time.

(** The booted vehicle after a critical GPS error was reported at time 1. *)
Definition faulted : Task :=
  fst (consume_EntityMonitoringState imc (critical 1 "GPS" 1000001)
         (clock_at 1) booted).

(** The booted vehicle after an Abort at time 1 and a CALIBRATE request at
    time 2. *)
Definition calibrating_after_abort : Task :=
  fst (run imc [(clock_at 1, EvAbort);
                (clock_at 2, EvVehicleCommand (request VC_CALIBRATE None))]
         booted []).

(** The names [consume(EntityMonitoringState)] stores in [error_ents]: the
    critical names, then the error names, comma-separated when both are
    present. *)
Definition reportedNames (msg : EntityMonitoringState) : string :=
  let critical := if negb (ems_ccount msg =? 0) then ems_cnames msg else "" in
  if negb (ems_ecount msg =? 0)
  then (critical ++ (if negb (ems_ccount msg =? 0)%Z then "," else "")
        ++ ems_enames msg)%string
  else critical.

(** [ManeuverControlState] from the vehicle's own system. *)
Definition own_mcs (ctx : Context) (state : StateEnum) (time : Q)
    : ManeuverControlState :=
  mkManeuverControlState (getSystemId ctx) time state 0 "".


(** The part of the handler of [ev] that runs before its call
    [changeMode(VS_SERVICE)], on the path that reaches the call: the two
    assignments and the [reset] of [consume(Abort)], the update of the loops
    of [consume(ControlLoops)], the first half of
    [consume(EntityMonitoringState)], the two assignments of the MCS_ERROR
    case, the [reset] of [stopManeuver], and for the periodic task the
    dispatch of the state, followed by a [reset] when the maneuver request
    timed out.  [consume(PlanControl)] has no such call. *)
Definition before_service (ctx : Context) (clk : Clock) (ev : Event) : Act :=
  match ev with
  | EvAbort =>
      assign (set_last_error "got abort request") ;;
      assign (set_last_error_time (Clock_getSinceEpoch clk)) ;;
      reset clk
  | EvControlLoops msg =>
      assign (fun v => set_control_loops
                         (Z.land (control_loops v) (not32 (cl_mask msg))) v)
  | EvEntityMonitoringState msg => recordEntityErrors msg clk
  | EvManeuverControlState msg =>
      assign (fun v => set_last_error
                (getAbbrevFromId ctx (maneuver_type v)
                 ++ " maneuver error: " ++ mcs_info msg)%string v) ;;
      assign (set_last_error_time (mcs_timestamp msg))
  | EvPlanControl _ => nop
  | EvVehicleCommand _ => reset clk
  | EvTick => dispatch_vs ;; whenA maneuverMode (reset clk)
  end.

(** The part of the handler of [ev] that runs after its call
    [changeMode(VS_SERVICE)]: the [reset] of the MCS_ERROR case, the reply of
    [stopManeuver], and the periodic task unarming the switch timer. *)
Definition after_service (clk : Clock) (ev : Event) : Act :=
  match ev with
  | EvManeuverControlState _ => reset clk
  | EvVehicleCommand cmd => requestOK cmd "OK"
  | EvTick => modify (set_switch_time (-1))
  | _ => nop
  end.

(** When the handler of [ev], run on [t], brings the task from another mode
    into SERVICE, it does so by its call [changeMode(VS_SERVICE)]: the call
    is made in a mode other than SERVICE with no critical entity error
    pending, and none is pending when the call returns in SERVICE. *)
Definition enters_service_by_changeMode (ctx : Context) (clk : Clock)
    (ev : Event) (t : Task) : Prop :=
  op_mode (m_vs t) <> VS_SERVICE ->
  op_mode (m_vs (fst (step ctx clk ev t))) = VS_SERVICE ->
  let t0 := fst (before_service ctx clk ev t) in
  let t1 := fst (changeMode ctx VS_SERVICE None clk t0) in
  step ctx clk ev t
  = (before_service ctx clk ev ;; changeMode ctx VS_SERVICE None clk ;;
     after_service clk ev) t /\
  op_mode (m_vs t0) <> VS_SERVICE /\
  entityError t0 = false /\
  op_mode (m_vs t1) = VS_SERVICE /\
  entityError t1 = false.

(** A plan started with the IGNORE_ERRORS flag, a Goto accepted, an IMU
    error reported (not critical for the safe plan, whose whitelist is
    GPS): the vehicle is in MANEUVER. *)
Definition safe_plan_maneuver : Task :=
  fst (run imc
         [(clock_at 1, EvPlanControl (mkPlanControl PC_REQUEST PC_START 0x2));
          (clock_at 2, EvVehicleCommand (request VC_EXEC_MANEUVER (Some Goto)));
          (clock_at 3, EvEntityMonitoringState (critical 1 "IMU" 1000003))]
         booted []).

(** Maneuver messages among the dispatched ones: a requested payload, or the
    IdleManeuver of [reset]. *)
Definition is_maneuver (m : Msg) : bool :=
  match m with
  | MManeuver _ _ | MIdleManeuver => true
  | _ => false
  end.

(** The most recently dispatched maneuver message on the bus, if any. *)
Definition last_maneuver (bus : list Msg) : option Msg :=
  fold_left (fun acc m => if is_maneuver m then Some m else acc) bus None.

(** The inductive form of the maneuver invariant: in MANEUVER the start time
    is non-negative and the last maneuver message on the bus is the payload
    that [maneuver_type] and [maneuver_stime] describe; in any other mode
    the start time is -1. *)
Definition maneuver_consistent (t : Task) (bus : list Msg) : Prop :=
  match op_mode (m_vs t) with
  | VS_MANEUVER =>
      (0 <= maneuver_stime (m_vs t))%Q /\
      exists m, last_maneuver bus = Some (MManeuver m (maneuver_stime (m_vs t)))
                /\ maneuver_type (m_vs t) = man_id m
  | _ => maneuver_stime (m_vs t) = (-1)%Q
  end.

(** [a] keeps the maneuver invariant, the bus growing by what [a]
    dispatches. *)
Definition keeps_consistent (a : Act) : Prop :=
  forall t bus,
    maneuver_consistent t bus ->
    maneuver_consistent (fst (a t)) (bus ++ snd (a t)).

(** The wall clock does not read before the epoch. *)
Definition after_epoch (clk : Clock) : Prop :=
  (0 <= Clock_getSinceEpoch clk)%Q.

(** ** Vocabulary of the further properties *)

(** The mode a request for SERVICE ends in, by the guard of [changeMode]:
    the task stays in SERVICE when it is there already, and otherwise lands
    in ERROR when a critical entity error is pending. *)
Definition service_or_error (t : Task) : OperationModeEnum :=
  match op_mode (m_vs t) with
  | VS_SERVICE => VS_SERVICE
  | _ => if entityError t then VS_ERROR else VS_SERVICE
  end.

(** [StopManeuver], when [t] is in MANEUVER: what [reset] dispatches before
    its IdleManeuver. *)
Definition stop_if_maneuvering (t : Task) : list Msg :=
  match op_mode (m_vs t) with
  | VS_MANEUVER => [MStopManeuver]
  | _ => []
  end.

(** The replies among the dispatched messages, in order. *)
Fixpoint replies (out : list Msg) : list Reply :=
  match out with
  | [] => []
  | MVehicleCommand r :: out => r :: replies out
  | _ :: out => replies out
  end.

(** The operating mode the last dispatched VehicleState reports, if any. *)
Definition last_published (out : list Msg) : option OperationModeEnum :=
  fold_left (fun acc m => match m with
                          | MVehicleState vs => Some (op_mode vs)
                          | _ => acc
                          end) out None.

(** The requests the supervisor answers with FAILURE: an EXEC_MANEUVER
    without maneuver, and an EXEC_MANEUVER or a CALIBRATE received in
    EXTERNAL. *)
Definition refused (cmd : VehicleCommand) (t : Task) : bool :=
  match vc_command cmd with
  | VC_EXEC_MANEUVER =>
      match vc_maneuver cmd with
      | None => true
      | Some _ => OperationModeEnum_eqb (op_mode (m_vs t)) VS_EXTERNAL
      end
  | VC_CALIBRATE => OperationModeEnum_eqb (op_mode (m_vs t)) VS_EXTERNAL
  | _ => false
  end.

(** The task the events [evs] lead to from the initial state. *)
Definition state_after (ctx : Context) (args : Arguments) (clk0 : Clock)
    (evs : list (Clock * Event)) : Task :=
  fst (run ctx evs (initial args clk0) []).

(** The mode is backed by its cause: EXTERNAL by an enabled loop, ERROR by
    a pending entity error. *)
Definition mode_grounded (t : Task) : Prop :=
  (op_mode (m_vs t) = VS_EXTERNAL -> control_loops (m_vs t) <> 0) /\
  (op_mode (m_vs t) = VS_ERROR -> error_count (m_vs t) <> 0).

(** Outside MANEUVER the maneuver fields hold their idle values and the
    MANEUVER_DONE flag is clear; in MANEUVER the flags are clear or hold
    MANEUVER_DONE alone. *)
Definition maneuver_fields_idle (ctx : Context) (t : Task) : Prop :=
  match op_mode (m_vs t) with
  | VS_MANEUVER =>
      flags (m_vs t) = 0 \/ flags (m_vs t) = VFLG_MANEUVER_DONE ctx mod 256
  | _ =>
      maneuver_type (m_vs t) = 0xFFFF /\ maneuver_eta (m_vs t) = 0xFFFF
      /\ flags (m_vs t) = 0
  end.

(** The switch timer follows the mode: armed throughout CALIBRATION, armed
    in MANEUVER from the moment the maneuver is reported done, and unarmed
    in every other mode. *)
Definition switch_timer_follows_mode (ctx : Context) (t : Task) : Prop :=
  match op_mode (m_vs t) with
  | VS_CALIBRATION => (0 <= m_switch_time t)%Q
  | VS_MANEUVER =>
      (flags (m_vs t) = 0 /\ m_switch_time t = (-1)%Q) \/
      (flags (m_vs t) = VFLG_MANEUVER_DONE ctx mod 256
       /\ (0 <= m_switch_time t)%Q)
  | _ => m_switch_time t = (-1)%Q
  end.

(** The monotonic clock does not read below zero. *)
Definition clock_started (clk : Clock) : Prop := (0 <= Clock_get clk)%Q.

(** The two conversions of [startCalibration] are defined: the calibration
    time of [t] truncates to a 16-bit number and the clock reading lies in
    the range of [float]. *)
Definition calibration_defined (t : Task) (clk : Clock) : Prop :=
  to_uint16 (calibration_time (m_args t)) <> None /\
  in_float_range (Clock_get clk).

(** [StopManeuver] and [IdleManeuver], when [t] is in MANEUVER: what
    [startCalibration] dispatches by its [reset]. *)
Definition reset_if_maneuvering (t : Task) : list Msg :=
  match op_mode (m_vs t) with
  | VS_MANEUVER => [MStopManeuver; MIdleManeuver]
  | _ => []
  end.

(** The mode an Abort or a STOP_MANEUVER leaves a task that is not in ERROR
    in: SERVICE, unless it comes from another mode with entity errors
    pending. *)
Definition mode_after_stop (t : Task) : OperationModeEnum :=
  match op_mode (m_vs t) with
  | VS_SERVICE => VS_SERVICE
  | _ => if error_count (m_vs t) =? 0 then VS_SERVICE else VS_ERROR
  end.

(** The booted vehicle under teleoperation: the non-overridable loop
    TELEOPERATION was enabled at time 1. *)
Definition teleoperated : Task :=
  fst (consume_ControlLoops imc (mkControlLoops CL_ENABLE 0x2) (clock_at 1)
         booted).

(** The switch timer is unarmed outside the two timed modes. *)
Definition timer_idle (t : Task) : Prop :=
  match op_mode (m_vs t) with
  | VS_CALIBRATION | VS_MANEUVER => True
  | _ => m_switch_time t = (-1)%Q
  end.

(** ** Basic facts *)

Lemma Qltb_true (x y : Q) : Qltb x y = true <-> (x < y)%Q.
Proof.
  unfold Qltb. rewrite negb_true_iff.
  split; intro H.
  - apply Qnot_le_lt. intro Hle. apply Qle_bool_iff in Hle. congruence.
  - destruct (Qle_bool y x) eqn:E; [|reflexivity].
    apply Qle_bool_iff in E. exfalso. exact (Qlt_not_le _ _ H E).
Qed.

Lemma Qltb_false (x y : Q) : Qltb x y = false <-> (y <= x)%Q.
Proof.
  unfold Qltb. rewrite negb_false_iff. apply Qle_bool_iff.
Qed.

(** Rounding keeps the sign. *)
Lemma round_pos_nonneg (prec emin : Z) (n d : positive) :
  (0 <= round_pos prec emin n d)%Q.
Proof.
  unfold round_pos.
  set (e0 := Z.log2 (Zpos n) - Z.log2 (Zpos d)).
  set (above := if 0 <=? e0 then _ else _).
  set (e := if above then e0 else e0 - 1).
  set (k := Z.max (e - prec + 1) emin).
  set (N := if 0 <=? k then Zpos n else Zpos n * 2 ^ (- k)).
  set (D := if 0 <=? k then Zpos d * 2 ^ k else Zpos d).
  assert (HN : 0 <= N).
  { unfold N. destruct (0 <=? k); [lia|].
    apply Z.mul_nonneg_nonneg; [lia|]. apply Z.pow_nonneg. lia. }
  assert (HD : 0 < D).
  { unfold D. destruct (0 <=? k) eqn:Hk; [|lia].
    apply Z.leb_le in Hk.
    apply Z.mul_pos_pos; [lia|]. apply Z.pow_pos_nonneg; lia. }
  assert (Hq : 0 <= N / D) by (apply Z.div_pos; assumption).
  set (m := if 2 * (N mod D) <? D then _ else _).
  assert (Hm : 0 <= m).
  { unfold m. repeat match goal with |- context [if ?c then _ else _] =>
      destruct c end; lia. }
  destruct (0 <=? k) eqn:Hk.
  - unfold Qle. cbn. rewrite Z.mul_1_r.
    apply Z.mul_nonneg_nonneg; [exact Hm|]. apply Z.pow_nonneg. lia.
  - rewrite Qred_correct. unfold Qle. cbn. lia.
Qed.

(** A clock reading that is not negative is stored as a timer value that
    is not negative. *)
Lemma float_of_double_nonneg (x : Q) :
  (0 <= x)%Q -> (0 <= float_of_double x)%Q.
Proof.
  intro Hx. unfold float_of_double. destruct x as [n d]. cbn.
  destruct n as [|n|n].
  - apply Qle_refl.
  - apply round_pos_nonneg.
  - exfalso. unfold Qle in Hx. cbn in Hx. lia.
Qed.


(** The rounding at work: 2^24 + 1 is a tie and goes to the even
    significand, as does 2^24 + 3; 100000 + 1/512 loses its fraction; 1/10
    is not a [float]; 3/2 is. *)
Example float_of_double_rounds :
  float_of_double 16777217 = 16777216%Q /\
  float_of_double 16777219 = 16777220%Q /\
  float_of_double (51200001 # 512) = 100000%Q /\
  float_of_double (1 # 10) = (13421773 # 134217728)%Q /\
  float_of_double (- (3 # 2)) = (- (3 # 2))%Q.
Proof. vm_compute. repeat split; reflexivity. Qed.

Lemma OperationModeEnum_eqb_spec (a b : OperationModeEnum) :
  reflect (a = b) (OperationModeEnum_eqb a b).
Proof. destruct a, b; simpl; constructor; congruence. Qed.


(** ** entityError *)

Lemma anyRelevant_spec (ents safe : list string) :
  anyRelevant ents safe = true <-> exists e, In e ents /\ In e safe.
Proof.
  unfold anyRelevant. rewrite existsb_exists. split.
  - intros [e [He Hs]]. apply existsb_exists in Hs as [s [Hs Heq]].
    apply String.eqb_eq in Heq. subst s. exists e. split; assumption.
  - intros [e [He Hs]]. exists e. split; [assumption|].
    apply existsb_exists. exists e. split; [assumption|].
    apply String.eqb_refl.
Qed.

Lemma length_zero_nil {A : Type} (l : list A) :
  (Z.of_nat (List.length l) =? 0) = true <-> l = [].
Proof.
  destruct l; simpl; split; intro H; try reflexivity; try discriminate.
Qed.

(** C4.  [entityError] returns true if and only if [error_count] is non-zero
    and, when a safe plan is running and the [safe_ents] whitelist is
    non-empty, some name obtained by splitting [error_ents] on "," is a
    member of [safe_ents]; in every other case a non-zero [error_count] is
    enough. *)
Theorem entityError_critical (t : Task) :
  entityError t = true <->
  error_count (m_vs t) <> 0 /\
  (m_in_safe_plan t = true -> safe_ents (m_args t) <> [] ->
   exists e, In e (split (error_ents (m_vs t)) ",")
             /\ In e (safe_ents (m_args t))).
Proof.
  unfold entityError.
  destruct (Z.eqb_spec (error_count (m_vs t)) 0) as [Hz|Hnz]; simpl.
  - split; [discriminate|]. intros [H _]. contradiction.
  - destruct (Z.of_nat (List.length (safe_ents (m_args t))) =? 0) eqn:Hlen;
      simpl.
    + apply length_zero_nil in Hlen. split; [|reflexivity].
      intros _. split; [assumption|]. intros _ Hne. contradiction.
    + assert (Hne : safe_ents (m_args t) <> []).
      { intro Hnil. apply length_zero_nil in Hnil. congruence. }
      destruct (m_in_safe_plan t); simpl.
      * rewrite anyRelevant_spec. split.
        -- intros Hex. split; [assumption|]. intros _ _. exact Hex.
        -- intros [_ Hex]. apply Hex; [reflexivity|assumption].
      * split; [|reflexivity]. intros _. split; [assumption|].
        intros Hfalse. discriminate.
Qed.

(** The safe-plan scenario: with [safe_ents = ["GPS"]] and a safe plan
    running, an error of "IMU" is not critical and an error of "GPS" is. *)
Example entityError_safe_plan_IMU :
  entityError
    (with_vs (fun v => set_error_ents "IMU" (set_error_count 1 v))
       (set_in_safe_plan true booted)) = false.
Proof. reflexivity. Qed.

Example entityError_safe_plan_GPS :
  entityError
    (with_vs (fun v => set_error_ents "GPS" (set_error_count 1 v))
       (set_in_safe_plan true booted)) = true.
Proof. reflexivity. Qed.

Example entityError_no_safe_plan_IMU :
  entityError
    (with_vs (fun v => set_error_ents "IMU" (set_error_count 1 v)) booted)
  = true.
Proof. reflexivity. Qed.

(** ** Scenarios

    Concrete runs of the booted vehicle. *)

(** Enabling the teleoperation loop in SERVICE gives EXTERNAL; disabling it
    gives SERVICE back. *)
Example scenario_control_loop_external :
  let t1 := fst (consume_ControlLoops imc (mkControlLoops CL_ENABLE 0x2)
                   (clock_at 1) booted) in
  let t2 := fst (consume_ControlLoops imc (mkControlLoops CL_DISABLE 0x2)
                   (clock_at 2) t1) in
  op_mode (m_vs t1) = VS_EXTERNAL /\ op_mode (m_vs t2) = VS_SERVICE.
Proof. split; reflexivity. Qed.

(** During a safe plan whose whitelist is GPS, an IMU error changes no mode
    and a GPS error gives ERROR. *)
Example scenario_safe_plan_filtering :
  let t0 := set_in_safe_plan true booted in
  let t1 := fst (consume_EntityMonitoringState imc
                   (mkEntityMonitoringState 1 "IMU" 0 "" "" 0)
                   (clock_at 1) t0) in
  let t2 := fst (consume_EntityMonitoringState imc
                   (mkEntityMonitoringState 1 "GPS" 0 "" "" 0)
                   (clock_at 2) t1) in
  op_mode (m_vs t1) = VS_SERVICE /\ op_mode (m_vs t2) = VS_ERROR.
Proof. split; reflexivity. Qed.

(** An EXEC_MANEUVER of the vehicle under external control is rejected. *)
Example scenario_exec_maneuver_in_external :
  let t1 := fst (consume_ControlLoops imc (mkControlLoops CL_ENABLE 0x2)
                   (clock_at 1) booted) in
  consume_VehicleCommand imc (request VC_EXEC_MANEUVER (Some Goto))
    (clock_at 2) t1
  = (t1, [replyTo (request VC_EXEC_MANEUVER (Some Goto)) VC_FAILURE
            "Goto maneuver cannot be started in current mode"]).
Proof. reflexivity. Qed.

(** ** VehicleCommand *)

Section Commands.

Variable ctx : Context.

(** C9.  A [VehicleCommand] whose type is not [VC_REQUEST] (the supervisor's
    own SUCCESS and FAILURE replies among them) leaves the whole task
    unchanged and dispatches nothing. *)
Theorem consume_VehicleCommand_not_request
    (cmd : VehicleCommand) (clk : Clock) (t : Task) :
  vc_type cmd <> VC_REQUEST ->
  consume_VehicleCommand ctx cmd clk t = (t, []).
Proof.
  intro Hty. unfold consume_VehicleCommand.
  destruct (vc_type cmd); [contradiction | reflexivity ..].
Qed.

End Commands.

(** The theorem at a SUCCESS reply delivered to the booted vehicle. *)
Lemma consume_VehicleCommand_not_request_witness :
  consume_VehicleCommand imc
    (mkVehicleCommand 7 8 VC_SUCCESS 9 VC_EXEC_MANEUVER (Some Goto))
    (clock_at 1) booted
  = (booted, []).
Proof.
  apply consume_VehicleCommand_not_request. discriminate.
Defined.

(** ** Proof support *)

Ltac act_unfold :=
  unfold consume_VehicleCommand, startManeuver, stopManeuver, startCalibration,
    requestOK, requestFailed, answer, consume_Abort, consume_ControlLoops,
    onEnabledControlLoops, onDisabledControlLoops,
    consume_ManeuverControlState, consume_PlanControl,
    consume_EntityMonitoringState, recordEntityErrors, task,
    changeMode, reset, dispatch_vs, assign,
    andThen, whenA, ifA, modify, dispatch, nop,
    serviceMode, maneuverMode, errorMode, externalMode, calibrationMode,
    modeIs in *.

Ltac destruct_task t :=
  let sw := fresh "sw" in let sp := fresh "sp" in let et := fresh "et" in
  let om := fresh "om" in let ec := fresh "ec" in let ee := fresh "ee" in
  let mt := fresh "mt" in let ms := fresh "ms" in let me := fresh "me" in
  let cl := fresh "cl" in let fl := fresh "fl" in let le := fresh "le" in
  let lt := fresh "lt" in let ar := fresh "ar" in
  destruct t as [sw sp et [om ec ee mt ms me cl fl le lt] ar].

Ltac case_if :=
  match goal with
  | |- context [if ?c then _ else _] =>
      lazymatch c with
      | context [if _ then _ else _] => fail
      | _ => destruct c eqn:?
      end
  end.

(** ** changeMode and its null payload *)

(** A mode other than MANEUVER is never requested into MANEUVER: the block
    of [changeMode] that reads the payload is skipped, whatever the payload,
    so the calls that pass the null pointer do not dereference it. *)
Lemma changeMode_stays_out_of_maneuver (ctx : Context)
    (s : OperationModeEnum) (m : Maneuver) (clk : Clock) (t : Task) :
  s <> VS_MANEUVER ->
  changeMode ctx s None clk t = changeMode ctx s (Some m) clk t /\
  op_mode (m_vs (fst (changeMode ctx s None clk t))) <> VS_MANEUVER.
Proof.
  intro Hs. act_unfold. destruct_task t.
  destruct s, om; try contradiction; cbn;
    repeat (case_if; cbn); split; try reflexivity; discriminate.
Qed.

(** ** EXEC_MANEUVER *)

Section ExecManeuver.

Variable ctx : Context.

(** C1 (amended).  A request with command EXEC_MANEUVER carrying a maneuver
    is accepted (StopManeuver, then the payload, then the state and a
    SUCCESS reply are dispatched, and the task enters MANEUVER) exactly when
    the task is not in EXTERNAL, that is from SERVICE, CALIBRATION, ERROR and
    MANEUVER alike; in EXTERNAL it is rejected with a FAILURE reply and the
    task is left as it was. *)
Theorem startManeuver_accepted_unless_external
    (cmd : VehicleCommand) (m : Maneuver) (clk : Clock) (t : Task) :
  vc_type cmd = VC_REQUEST ->
  vc_command cmd = VC_EXEC_MANEUVER ->
  vc_maneuver cmd = Some m ->
  let res := consume_VehicleCommand ctx cmd clk t in
  (accepted cmd m clk res <-> op_mode (m_vs t) <> VS_EXTERNAL) /\
  (op_mode (m_vs t) = VS_EXTERNAL -> rejected cmd t res).
Proof.
  intros Hty Hcmd Hman res. subst res.
  unfold accepted, rejected, replyTo.
  act_unfold. rewrite Hty, Hcmd, Hman.
  destruct_task t.
  destruct om; cbn; (split; [split|]); try discriminate; try congruence;
    intros; try (split; [reflexivity|eexists; reflexivity]).
  destruct H as [H _]. discriminate.
Qed.

End ExecManeuver.

(** The theorem at the booted vehicle, which is in SERVICE. *)
Lemma startManeuver_accepted_unless_external_witness :
  let cmd := request VC_EXEC_MANEUVER (Some Goto) in
  let res := consume_VehicleCommand imc cmd (clock_at 2) booted in
  (accepted cmd Goto (clock_at 2) res <-> op_mode (m_vs booted) <> VS_EXTERNAL)
  /\ (op_mode (m_vs booted) = VS_EXTERNAL -> rejected cmd booted res).
Proof.
  exact (startManeuver_accepted_unless_external imc
           (request VC_EXEC_MANEUVER (Some Goto)) Goto (clock_at 2) booted
           eq_refl eq_refl eq_refl).
Defined.

(** C1 as stated fails: a vehicle that is calibrating is neither in SERVICE
    nor in MANEUVER, and its EXEC_MANEUVER request is accepted. *)
Lemma startManeuver_accepted_in_calibration :
  let cmd := request VC_EXEC_MANEUVER (Some Goto) in
  let res := consume_VehicleCommand imc cmd (clock_at 2) calibrating in
  op_mode (m_vs calibrating) = VS_CALIBRATION /\
  accepted cmd Goto (clock_at 2) res /\
  ~ (accepted cmd Goto (clock_at 2) res <->
     op_mode (m_vs calibrating) = VS_SERVICE
     \/ op_mode (m_vs calibrating) = VS_MANEUVER).
Proof.
  assert (Hacc : accepted (request VC_EXEC_MANEUVER (Some Goto)) Goto
                   (clock_at 2)
                   (consume_VehicleCommand imc
                      (request VC_EXEC_MANEUVER (Some Goto)) (clock_at 2)
                      calibrating)).
  { split; [reflexivity|]. eexists. reflexivity. }
  cbv zeta. split; [reflexivity|]. split; [exact Hacc|].
  intros [Hiff _]. destruct (Hiff Hacc) as [H|H]; discriminate H.
Qed.

(** ** ControlLoops *)

Lemma land_not32 (x m : Z) :
  0 <= x < 2 ^ 32 -> Z.land x (not32 m) = Z.ldiff x m.
Proof.
  intros Hx. unfold not32. apply Z.bits_inj'. intros n Hn.
  rewrite Z.land_spec, Z.ldiff_spec.
  destruct (Z.lt_ge_cases n 32) as [Hlt|Hge].
  - rewrite Z.mod_pow2_bits_low by lia. rewrite Z.lnot_spec by lia.
    reflexivity.
  - assert (Hbit : Z.testbit x n = false).
    { destruct (Z.eq_dec x 0) as [->|Hx0]; [apply Z.bits_0|].
      apply Z.bits_above_log2; [lia|].
      apply Z.log2_lt_pow2; [lia|].
      apply Z.lt_le_trans with (2 ^ 32); [lia|].
      apply Z.pow_le_mono_r; lia. }
    rewrite Hbit. reflexivity.
Qed.

Lemma ldiff_lor_same (v m : Z) : Z.ldiff (Z.lor v m) m = Z.ldiff v m.
Proof.
  apply Z.bits_inj'. intros n Hn.
  rewrite !Z.ldiff_spec, Z.lor_spec.
  destruct (Z.testbit v n), (Z.testbit m n); reflexivity.
Qed.

Lemma ldiff_fixed (v m : Z) : Z.ldiff v m = v <-> Z.land v m = 0.
Proof.
  split; intro H.
  - apply Z.bits_inj'. intros n Hn. rewrite Z.land_spec, Z.bits_0.
    rewrite <- H at 1. rewrite Z.ldiff_spec.
    destruct (Z.testbit v n), (Z.testbit m n); reflexivity.
  - apply Z.bits_inj'. intros n Hn. rewrite Z.ldiff_spec.
    assert (Hb : Z.testbit (Z.land v m) n = false) by (rewrite H; apply Z.bits_0).
    rewrite Z.land_spec in Hb.
    destruct (Z.testbit v n), (Z.testbit m n); try reflexivity; discriminate.
Qed.

Lemma lor_uint32 (v m : Z) :
  0 <= v < 2 ^ 32 -> 0 <= m < 2 ^ 32 -> 0 <= Z.lor v m < 2 ^ 32.
Proof.
  intros Hv Hm. split; [apply Z.lor_nonneg; lia|].
  destruct (Z.eq_dec (Z.lor v m) 0) as [->|Hnz]; [lia|].
  apply Z.log2_lt_pow2; [assert (0 <= Z.lor v m) by (apply Z.lor_nonneg; lia); lia|].
  rewrite Z.log2_lor by lia.
  apply Z.max_lub_lt.
  - destruct (Z.eq_dec v 0) as [->|Hv0]; [reflexivity|].
    apply Z.log2_lt_pow2; lia.
  - destruct (Z.eq_dec m 0) as [->|Hm0]; [reflexivity|].
    apply Z.log2_lt_pow2; lia.
Qed.

Section ControlLoopsArbitration.

Variable ctx : Context.

(** [enable(mask)] leaves [control_loops | mask], unless the loop set was
    empty and [onEnabledControlLoops] reset it. *)
Lemma enable_control_loops (m : Z) (clk : Clock) (t : Task) :
  let v := control_loops (m_vs t) in
  let t1 := fst (consume_ControlLoops ctx (mkControlLoops CL_ENABLE m) clk t) in
  control_loops (m_vs t1) = Z.lor v m \/ (v = 0 /\ control_loops (m_vs t1) = 0).
Proof.
  destruct_task t. act_unfold. cbn.
  destruct (cl =? 0) eqn:Hwas; cbn; [|left; reflexivity].
  apply Z.eqb_eq in Hwas. subst cl.
  destruct (Z.lor 0 m =? 0) eqn:Hnew; cbn; [left; reflexivity|].
  destruct om; cbn; try (left; reflexivity).
  case_if; cbn; auto.
Qed.

(** [disable(mask)] leaves [control_loops & ~mask]. *)
Lemma disable_control_loops (m : Z) (clk : Clock) (t : Task) :
  let t1 := fst (consume_ControlLoops ctx (mkControlLoops CL_DISABLE m) clk t) in
  control_loops (m_vs t1) = Z.land (control_loops (m_vs t)) (not32 m).
Proof.
  destruct_task t. act_unfold. cbn.
  destruct (negb (cl =? 0) && (Z.land cl (not32 m) =? 0)) eqn:Hc; cbn;
    [|reflexivity].
  destruct om; cbn; try reflexivity.
  repeat (case_if; cbn); reflexivity.
Qed.

(** C2 (amended).  From a [control_loops] value [v], consuming
    [ControlLoops{CL_ENABLE, m}] and then [ControlLoops{CL_DISABLE, m}]
    leaves [v] with the bits of [m] cleared ([v & ~m]); this is [v] again
    exactly when no bit of [m] was set in [v] beforehand. *)
Theorem enable_disable_clears_mask (m : Z) (clk1 clk2 : Clock) (t : Task) :
  0 <= control_loops (m_vs t) < 2 ^ 32 ->
  0 <= m < 2 ^ 32 ->
  let v := control_loops (m_vs t) in
  enable_disable ctx m clk1 clk2 t = Z.ldiff v m /\
  (enable_disable ctx m clk1 clk2 t = v <-> Z.land v m = 0).
Proof.
  intros Hv Hm v.
  assert (Heq : enable_disable ctx m clk1 clk2 t = Z.ldiff v m).
  { unfold enable_disable. rewrite disable_control_loops.
    destruct (enable_control_loops m clk1 t) as [H|[Hv0 H]]; rewrite H.
    - rewrite land_not32 by (apply lor_uint32; assumption).
      apply ldiff_lor_same.
    - subst v. rewrite Hv0. rewrite Z.land_0_l. symmetry. apply Z.ldiff_0_l. }
  split; [exact Heq|]. rewrite Heq. apply ldiff_fixed.
Qed.

End ControlLoopsArbitration.

(** The theorem at the booted vehicle and the teleoperation loop. *)
Lemma enable_disable_clears_mask_witness :
  enable_disable imc 2 (clock_at 1) (clock_at 2) booted = Z.ldiff 0 2 /\
  (enable_disable imc 2 (clock_at 1) (clock_at 2) booted = 0 <->
   Z.land 0 2 = 0).
Proof.
  apply (enable_disable_clears_mask imc 2 (clock_at 1) (clock_at 2) booted);
    simpl; lia.
Defined.

(** C2 as stated fails: with loop 1 already enabled, enabling and then
    disabling loop 1 leaves no loop enabled, not the prior value 1. *)
Lemma enable_disable_loses_enabled_loop :
  control_loops (m_vs path_controlled) = 1 /\
  enable_disable imc 1 (clock_at 2) (clock_at 3) path_controlled = 0 /\
  enable_disable imc 1 (clock_at 2) (clock_at 3) path_controlled
  <> control_loops (m_vs path_controlled).
Proof.
  split; [reflexivity|]. split; [reflexivity|]. discriminate.
Qed.

(** ** STOP_MANEUVER *)

Section StopManeuver.

Variable ctx : Context.

Lemma stopManeuver_settles (cmd : VehicleCommand) (clk : Clock) (t : Task) :
  settled (fst (stopManeuver ctx cmd clk t)).
Proof.
  unfold settled. act_unfold. destruct_task t.
  destruct om; cbn; unfold nonOverridableLoops; cbn;
    repeat (case_if; cbn);
    try (left; reflexivity); right; repeat split; reflexivity.
Qed.

Lemma stopManeuver_settled (cmd : VehicleCommand) (clk : Clock) (t : Task) :
  settled t ->
  (op_mode (m_vs t) = VS_ERROR ->
   stopManeuver ctx cmd clk t = (t, [replyTo cmd VC_SUCCESS "OK"])) /\
  (op_mode (m_vs t) <> VS_ERROR ->
   op_mode (m_vs t) = VS_SERVICE /\
   stopManeuver ctx cmd clk t =
     (set_err_timer (Counter_reset (Clock_get clk) (m_err_timer t)) t,
      [MIdleManeuver; MVehicleState (m_vs t); replyTo cmd VC_SUCCESS "OK"])).
Proof.
  unfold settled, replyTo. act_unfold. destruct_task t. cbn.
  intros [Hm|[Hm [Hcl [Hsp Hsw]]]]; subst; cbn; split; intro H;
    try discriminate H; try (exfalso; apply H; reflexivity);
    try reflexivity.
  split; reflexivity.
Qed.

(** C3 (amended).  After one STOP_MANEUVER has been processed, a second
    identical one replies SUCCESS and changes no field of the vehicle state,
    nor the switch timer or the safe-plan flag.  When the first left the
    supervisor in ERROR the second dispatches the reply alone and changes
    nothing at all; otherwise the supervisor is in SERVICE and the second
    dispatches IdleManeuver and VehicleState before its reply and restarts
    the error print timer. *)
Theorem stopManeuver_twice
    (cmd : VehicleCommand) (clk1 clk2 : Clock) (t : Task) :
  vc_type cmd = VC_REQUEST ->
  vc_command cmd = VC_STOP_MANEUVER ->
  let t1 := fst (consume_VehicleCommand ctx cmd clk1 t) in
  let res2 := consume_VehicleCommand ctx cmd clk2 t1 in
  set_err_timer (m_err_timer t1) (fst res2) = t1 /\
  (op_mode (m_vs t1) = VS_ERROR ->
   res2 = (t1, [replyTo cmd VC_SUCCESS "OK"])) /\
  (op_mode (m_vs t1) <> VS_ERROR ->
   op_mode (m_vs t1) = VS_SERVICE /\
   res2 = (set_err_timer (Counter_reset (Clock_get clk2) (m_err_timer t1)) t1,
           [MIdleManeuver; MVehicleState (m_vs t1);
            replyTo cmd VC_SUCCESS "OK"])).
Proof.
  intros Hty Hcmd. unfold consume_VehicleCommand. rewrite Hty, Hcmd.
  cbv zeta.
  pose proof (stopManeuver_settles cmd clk1 t) as Hset.
  destruct (stopManeuver_settled cmd clk2 _ Hset) as [Herr Hsrv].
  split; [|split; assumption].
  destruct (OperationModeEnum_eqb_spec
              (op_mode (m_vs (fst (stopManeuver ctx cmd clk1 t)))) VS_ERROR)
    as [He|Hne].
  - rewrite (Herr He). cbn. destruct (fst (stopManeuver ctx cmd clk1 t)).
    reflexivity.
  - destruct (Hsrv Hne) as [_ ->]. cbn.
    destruct (fst (stopManeuver ctx cmd clk1 t)). reflexivity.
Qed.

End StopManeuver.

(** The theorem at the booted vehicle. *)
Lemma stopManeuver_twice_witness :
  let cmd := request VC_STOP_MANEUVER None in
  let t1 := fst (consume_VehicleCommand imc cmd (clock_at 1) booted) in
  let res2 := consume_VehicleCommand imc cmd (clock_at 2) t1 in
  set_err_timer (m_err_timer t1) (fst res2) = t1 /\
  (op_mode (m_vs t1) = VS_ERROR ->
   res2 = (t1, [replyTo cmd VC_SUCCESS "OK"])) /\
  (op_mode (m_vs t1) <> VS_ERROR ->
   op_mode (m_vs t1) = VS_SERVICE /\
   res2 = (set_err_timer (Counter_reset (Clock_get (clock_at 2))
                            (m_err_timer t1)) t1,
           [MIdleManeuver; MVehicleState (m_vs t1);
            replyTo cmd VC_SUCCESS "OK"])).
Proof.
  exact (stopManeuver_twice imc (request VC_STOP_MANEUVER None)
           (clock_at 1) (clock_at 2) booted eq_refl eq_refl).
Defined.

(** C3 as stated fails: the second STOP_MANEUVER of the booted vehicle
    dispatches IdleManeuver and VehicleState besides its reply, and moves the
    error print timer. *)
Lemma stopManeuver_twice_dispatches_again :
  let cmd := request VC_STOP_MANEUVER None in
  let t1 := fst (consume_VehicleCommand imc cmd (clock_at 1) booted) in
  let res2 := consume_VehicleCommand imc cmd (clock_at 2) t1 in
  snd res2 = [MIdleManeuver; MVehicleState (m_vs t1);
              replyTo cmd VC_SUCCESS "OK"] /\
  snd res2 <> [replyTo cmd VC_SUCCESS "OK"] /\
  fst res2 <> t1.
Proof.
  cbv zeta. split; [reflexivity|]. split; [discriminate|].
  intro H. apply (f_equal (fun t => Qnum (c_last (m_err_timer t)))) in H.
  vm_compute in H. discriminate H.
Qed.

(** ** Abort *)

Section Abort.

Variable ctx : Context.

(** C5.  An Abort consumed in MANEUVER dispatches StopManeuver and
    IdleManeuver (then the new state), sets [last_error] to "got abort
    request" and moves to SERVICE, or to ERROR when entity errors are
    pending ([error_count] non-zero); an Abort consumed in ERROR records the
    error and stays in ERROR without dispatching. *)
Theorem consume_Abort_in_maneuver_or_error (clk : Clock) (t : Task) :
  let res := consume_Abort ctx clk t in
  (op_mode (m_vs t) = VS_MANEUVER ->
   snd res = [MStopManeuver; MIdleManeuver; MVehicleState (m_vs (fst res))] /\
   last_error (m_vs (fst res)) = "got abort request" /\
   op_mode (m_vs (fst res)) =
     (if error_count (m_vs t) =? 0 then VS_SERVICE else VS_ERROR)) /\
  (op_mode (m_vs t) = VS_ERROR ->
   snd res = [] /\
   last_error (m_vs (fst res)) = "got abort request" /\
   op_mode (m_vs (fst res)) = VS_ERROR).
Proof.
  act_unfold. destruct_task t. cbn. split; intro Hm; subst om; cbn.
  - unfold entityError; cbn.
    destruct (ec =? 0); cbn;
      destruct (Z.of_nat (List.length (safe_ents ar)) =? 0); cbn;
      repeat split; reflexivity.
  - repeat split; reflexivity.
Qed.

End Abort.

(** The theorem at a vehicle in MANEUVER and at a vehicle in ERROR. *)
Lemma consume_Abort_in_maneuver_or_error_witness :
  (let res := consume_Abort imc (clock_at 2) maneuvering in
   snd res = [MStopManeuver; MIdleManeuver; MVehicleState (m_vs (fst res))] /\
   last_error (m_vs (fst res)) = "got abort request" /\
   op_mode (m_vs (fst res)) = VS_SERVICE) /\
  (let res := consume_Abort imc (clock_at 2) faulted in
   snd res = [] /\
   last_error (m_vs (fst res)) = "got abort request" /\
   op_mode (m_vs (fst res)) = VS_ERROR).
Proof.
  split.
  - exact (proj1 (consume_Abort_in_maneuver_or_error imc (clock_at 2)
                    maneuvering) eq_refl).
  - exact (proj2 (consume_Abort_in_maneuver_or_error imc (clock_at 2)
                    faulted) eq_refl).
Defined.

(** ** Entity errors during calibration *)

Section Calibration.

Variable ctx : Context.

(** What the first half of the handler stores, whatever the mode. *)
Lemma recordEntityErrors_spec (msg : EntityMonitoringState) (clk : Clock)
    (t : Task) :
  let res := recordEntityErrors msg clk t in
  let count := (ems_ccount msg + ems_ecount msg) mod 256 in
  let newer := negb (count =? 0)
               && Qltb (last_error_time (m_vs t)) (ems_last_error_time msg) in
  snd res = [] /\
  m_switch_time (fst res) = m_switch_time t /\
  m_in_safe_plan (fst res) = m_in_safe_plan t /\
  m_args (fst res) = m_args t /\
  m_vs (fst res) =
    mkVehicleState (op_mode (m_vs t)) count (reportedNames msg)
      (maneuver_type (m_vs t)) (maneuver_stime (m_vs t))
      (maneuver_eta (m_vs t)) (control_loops (m_vs t)) (flags (m_vs t))
      (if newer then ems_last_error msg else last_error (m_vs t))
      (if newer then ems_last_error_time msg else last_error_time (m_vs t)).
Proof.
  unfold reportedNames. act_unfold. destruct_task t. cbn.
  repeat (case_if; cbn); repeat split; reflexivity.
Qed.

(** In CALIBRATION the handler does nothing beyond recording. *)
Lemma consume_EntityMonitoringState_calibrating
    (msg : EntityMonitoringState) (clk : Clock) (t : Task) :
  op_mode (m_vs t) = VS_CALIBRATION ->
  consume_EntityMonitoringState ctx msg clk t
  = (fst (recordEntityErrors msg clk t), []).
Proof.
  intro Hcal.
  destruct (recordEntityErrors_spec msg clk t) as (Ho & _ & _ & _ & Hvs).
  unfold consume_EntityMonitoringState, andThen.
  destruct (recordEntityErrors msg clk t) as [t1 o1]. cbn in *. subst o1.
  act_unfold. rewrite Hvs, Hcal. cbn.
  destruct (entityError t1); reflexivity.
Qed.

(** C6 (amended).  An EntityMonitoringState consumed in CALIBRATION stores
    [error_count] and [error_ents], and stores [last_error] when the count is
    non-zero and the message's [last_error_time] is later than the recorded
    one (otherwise [last_error] is kept); it dispatches nothing and changes
    neither [op_mode] nor the switch timer.  When the error is critical
    ([entityError] holds afterwards) the move to ERROR waits for the end of
    the calibration: a tick before the calibration time has elapsed leaves
    CALIBRATION, and the tick after it, which requests SERVICE, lands in
    ERROR. *)
Theorem entity_error_deferred_in_calibration
    (msg : EntityMonitoringState) (clk clk' : Clock) (t : Task) :
  op_mode (m_vs t) = VS_CALIBRATION ->
  let res := consume_EntityMonitoringState ctx msg clk t in
  let t' := fst res in
  let count := (ems_ccount msg + ems_ecount msg) mod 256 in
  (snd res = [] /\
   op_mode (m_vs t') = VS_CALIBRATION /\
   m_switch_time t' = m_switch_time t /\
   error_count (m_vs t') = count /\
   error_ents (m_vs t') = reportedNames msg /\
   last_error (m_vs t') =
     if negb (count =? 0)
        && Qltb (last_error_time (m_vs t)) (ems_last_error_time msg)
     then ems_last_error msg else last_error (m_vs t)) /\
  (entityError t' = true ->
   (0 <= m_switch_time t)%Q ->
   op_mode (m_vs (fst (task ctx clk' t'))) =
     if Qltb (calibration_time (m_args t)) (Clock_get clk' - m_switch_time t)
     then VS_ERROR else VS_CALIBRATION).
Proof.
  intros Hcal. cbv zeta.
  rewrite (consume_EntityMonitoringState_calibrating msg clk t Hcal).
  destruct (recordEntityErrors_spec msg clk t) as (_ & Hsw & _ & Hargs & Hvs).
  cbn [fst snd].
  destruct (fst (recordEntityErrors msg clk t)) as [sw1 sp1 et1 vs1 ar1].
  cbn in Hsw, Hargs, Hvs. subst sw1 ar1 vs1. cbn.
  rewrite Hcal.
  split; [repeat split; reflexivity|].
  intros Hcrit Harmed.
  act_unfold. cbn.
  assert (Hneg : Qltb (m_switch_time t) 0 = false)
    by (apply Qltb_false; exact Harmed).
  rewrite Hneg. cbn.
  destruct (Qltb (calibration_time (m_args t))
              (Clock_get clk' - m_switch_time t)); cbn; [|reflexivity].
  rewrite Hcrit. cbn. reflexivity.
Qed.

End Calibration.

(** The theorem at the calibrating vehicle, a critical GPS error reported at
    time 3 and a tick at time 20, past the ten seconds of the calibration. *)
Lemma entity_error_deferred_in_calibration_witness :
  let res := consume_EntityMonitoringState imc (critical 1 "GPS" 1000003)
               (clock_at 3) calibrating in
  (snd res = [] /\
   op_mode (m_vs (fst res)) = VS_CALIBRATION /\
   m_switch_time (fst res) = m_switch_time calibrating /\
   error_count (m_vs (fst res)) = 1 /\
   error_ents (m_vs (fst res)) = "GPS" /\
   last_error (m_vs (fst res)) = "GPS: failure") /\
  op_mode (m_vs (fst (task imc (clock_at 20) (fst res)))) = VS_ERROR.
Proof.
  pose proof (entity_error_deferred_in_calibration imc
                (critical 1 "GPS" 1000003) (clock_at 3) (clock_at 20)
                calibrating eq_refl) as [Hrec Htick].
  split; [exact Hrec|].
  apply Htick; [reflexivity|]. vm_compute. discriminate.
Defined.

(** C6 as stated fails on [last_error]: after an Abort, a critical error
    whose [last_error_time] is older than the abort is counted and named, but
    [last_error] keeps the abort's text. *)
Lemma entity_error_in_calibration_keeps_last_error :
  let msg := critical 1 "GPS" 1000000 in
  let t' := fst (consume_EntityMonitoringState imc msg (clock_at 3)
                   calibrating_after_abort) in
  op_mode (m_vs calibrating_after_abort) = VS_CALIBRATION /\
  entityError t' = true /\
  error_count (m_vs t') = 1 /\
  error_ents (m_vs t') = "GPS" /\
  last_error (m_vs t') = "got abort request" /\
  last_error (m_vs t') <> ems_last_error msg.
Proof.
  cbv zeta. repeat split; try reflexivity. vm_compute. discriminate.
Qed.

(** ** The maneuver request timeout *)

Section ManeuverTimeout.

Variable ctx : Context.

(** A tick with the switch timer unarmed only re-emits the state. *)
Lemma task_unarmed (clk : Clock) (t : Task) :
  (m_switch_time t < 0)%Q ->
  task ctx clk t = (t, [MVehicleState (m_vs t)]).
Proof.
  intro Hneg. apply Qltb_true in Hneg.
  unfold task, andThen, ifA, dispatch_vs, dispatch, nop. cbn.
  rewrite Hneg. reflexivity.
Qed.




End ManeuverTimeout.



(** ** Entering SERVICE *)

Section ServiceGuard.

Variable ctx : Context.

(** The guard of [changeMode]: a request for SERVICE from another mode, with
    a critical entity error pending, ends in ERROR. *)
Lemma changeMode_SERVICE_guard (maneuver : option Maneuver) (clk : Clock)
    (t : Task) :
  op_mode (m_vs t) <> VS_SERVICE ->
  entityError t = true ->
  op_mode (m_vs (fst (changeMode ctx VS_SERVICE maneuver clk t))) = VS_ERROR.
Proof.
  act_unfold. destruct_task t.
  destruct om, maneuver; cbn; intros Hne Hcrit; try contradiction;
    rewrite Hcrit; reflexivity.
Qed.

Ltac entered_done :=
  cbn in *;
  first [ discriminate
        | congruence
        | repeat split;
          first [ reflexivity | discriminate | assumption
                | unfold entityError in *; cbn in *; congruence ] ].

Ltac entered_by_cases om :=
  destruct om; cbn; intros Hne; try contradiction;
  repeat (case_if; cbn); intros Hs; entered_done.

Lemma consume_Abort_enters (clk : Clock) (t : Task) :
  enters_service_by_changeMode ctx clk EvAbort t.
Proof.
  unfold enters_service_by_changeMode, before_service, after_service, step.
  act_unfold. destruct_task t.
  unfold nonOverridableLoops. cbv zeta. entered_by_cases om.
Qed.

Lemma consume_ControlLoops_enters (msg : ControlLoops) (clk : Clock)
    (t : Task) :
  enters_service_by_changeMode ctx clk (EvControlLoops msg) t.
Proof.
  unfold enters_service_by_changeMode, before_service, after_service, step.
  act_unfold. destruct_task t. destruct msg as [en mask].
  unfold nonOverridableLoops. cbv zeta.
  destruct en; entered_by_cases om.
Qed.

Lemma consume_ManeuverControlState_enters (msg : ManeuverControlState)
    (clk : Clock) (t : Task) :
  enters_service_by_changeMode ctx clk (EvManeuverControlState msg) t.
Proof.
  unfold enters_service_by_changeMode, before_service, after_service, step.
  act_unfold. destruct_task t. destruct msg as [src ts st eta info].
  unfold nonOverridableLoops. cbv zeta.
  destruct st; entered_by_cases om.
Qed.

Lemma consume_PlanControl_enters (msg : PlanControl) (clk : Clock) (t : Task) :
  enters_service_by_changeMode ctx clk (EvPlanControl msg) t.
Proof.
  unfold enters_service_by_changeMode, before_service, after_service, step.
  act_unfold. destruct_task t. cbv zeta.
  cbn; intros Hne; repeat (case_if; cbn); intros Hs; congruence.
Qed.

Lemma consume_VehicleCommand_enters (cmd : VehicleCommand) (clk : Clock)
    (t : Task) :
  enters_service_by_changeMode ctx clk (EvVehicleCommand cmd) t.
Proof.
  unfold enters_service_by_changeMode, before_service, after_service, step.
  act_unfold. destruct_task t.
  unfold nonOverridableLoops. cbv zeta.
  destruct cmd as [src ent ty rid cmd man].
  destruct ty, cmd, man; entered_by_cases om.
Qed.

Lemma task_enters (clk : Clock) (t : Task) :
  enters_service_by_changeMode ctx clk EvTick t.
Proof.
  unfold enters_service_by_changeMode, before_service, after_service, step.
  act_unfold. destruct_task t.
  unfold nonOverridableLoops. cbv zeta. entered_by_cases om.
Qed.

Lemma consume_EntityMonitoringState_enters
    (msg : EntityMonitoringState) (clk : Clock) (t : Task) :
  enters_service_by_changeMode ctx clk (EvEntityMonitoringState msg) t.
Proof.
  unfold enters_service_by_changeMode, before_service, after_service, step.
  unfold consume_EntityMonitoringState, andThen, nop. cbv zeta. cbn beta.
  destruct (recordEntityErrors_spec msg clk t) as (Ho & Hsw & Hsp & Har & Hvs).

  destruct (recordEntityErrors msg clk t) as [t1 o1].
  cbn in Ho, Hsw, Hsp, Har, Hvs.
  assert (Hom : op_mode (m_vs t1) = op_mode (m_vs t))
    by (rewrite Hvs; reflexivity).
  rewrite <- Hom. clear Ho Hsw Hsp Har Hvs Hom t.
  destruct_task t1. act_unfold.
  unfold nonOverridableLoops, teleoperationOn, maneuverIs. cbv zeta.
  entered_by_cases om.
Qed.

(** C10.  [changeMode] invoked with target SERVICE from another mode while
    [entityError] holds ends in ERROR, not SERVICE.  Consequently no
    transition of a handler or of the periodic task enters SERVICE while a
    critical entity error is pending: whenever one of them brings the
    supervisor from another mode into SERVICE, it runs as the part before
    its call [changeMode(VS_SERVICE)], the call, and the part after it; the
    call is made in a mode other than SERVICE with [entityError] false, and
    it returns in SERVICE with [entityError] false. *)
Theorem service_entered_without_critical_error
    (maneuver : option Maneuver) (clk : Clock) (ev : Event) (t : Task) :
  op_mode (m_vs t) <> VS_SERVICE ->
  (entityError t = true ->
   op_mode (m_vs (fst (changeMode ctx VS_SERVICE maneuver clk t))) = VS_ERROR)
  /\
  (op_mode (m_vs (fst (step ctx clk ev t))) = VS_SERVICE ->
   let t0 := fst (before_service ctx clk ev t) in
   let t1 := fst (changeMode ctx VS_SERVICE None clk t0) in
   step ctx clk ev t
   = (before_service ctx clk ev ;; changeMode ctx VS_SERVICE None clk ;;
      after_service clk ev) t /\
   op_mode (m_vs t0) <> VS_SERVICE /\
   entityError t0 = false /\
   op_mode (m_vs t1) = VS_SERVICE /\
   entityError t1 = false).
Proof.
  intro Hne. split; [apply changeMode_SERVICE_guard; assumption|].
  intro Hs. destruct ev as [|msg|msg|msg|msg|cmd|].
  - exact (consume_Abort_enters clk t Hne Hs).
  - exact (consume_ControlLoops_enters msg clk t Hne Hs).
  - exact (consume_EntityMonitoringState_enters msg clk t Hne Hs).
  - exact (consume_ManeuverControlState_enters msg clk t Hne Hs).
  - exact (consume_PlanControl_enters msg clk t Hne Hs).
  - exact (consume_VehicleCommand_enters cmd clk t Hne Hs).
  - exact (task_enters clk t Hne Hs).
Qed.

End ServiceGuard.

(** The theorem at the faulted vehicle (in ERROR over a GPS error): the
    guard keeps it in ERROR, and the report that clears its errors brings it
    into SERVICE, the call made once the report is recorded. *)
Lemma service_entered_without_critical_error_witness :
  let clk := clock_at 2 in
  let ev := EvEntityMonitoringState (critical 0 "" 1000002) in
  let t0 := fst (before_service imc clk ev faulted) in
  let t1 := fst (changeMode imc VS_SERVICE None clk t0) in
  (entityError faulted = true /\
   op_mode (m_vs (fst (changeMode imc VS_SERVICE None clk faulted)))
   = VS_ERROR) /\
  op_mode (m_vs (fst (step imc clk ev faulted))) = VS_SERVICE /\
  step imc clk ev faulted
  = (before_service imc clk ev ;; changeMode imc VS_SERVICE None clk ;;
     after_service clk ev) faulted /\
  op_mode (m_vs t0) <> VS_SERVICE /\
  entityError t0 = false /\
  op_mode (m_vs t1) = VS_SERVICE /\
  entityError t1 = false.
Proof.
  assert (Hne : op_mode (m_vs faulted) <> VS_SERVICE) by discriminate.
  destruct (service_entered_without_critical_error imc None (clock_at 2)
              (EvEntityMonitoringState (critical 0 "" 1000002)) faulted Hne)
    as [Hguard Hstep].
  split; [split; [reflexivity|apply Hguard; reflexivity]|].
  split; [reflexivity|apply Hstep; reflexivity].
Defined.

(** A maneuver error during a safe plan with an ignored IMU error: the call
    [changeMode(VS_SERVICE)] is made, and returns in SERVICE, with
    [entityError] false; the [reset] that follows the call ends the safe
    plan, after which the IMU error counts as critical. *)
Lemma maneuver_error_ends_safe_plan :
  let clk := clock_at 4 in
  let ev := EvManeuverControlState (own_mcs imc MCS_ERROR 1000004) in
  let t0 := fst (before_service imc clk ev safe_plan_maneuver) in
  let t1 := fst (changeMode imc VS_SERVICE None clk t0) in
  let t' := fst (step imc clk ev safe_plan_maneuver) in
  op_mode (m_vs t0) = VS_MANEUVER /\
  m_in_safe_plan t0 = true /\
  entityError t0 = false /\
  op_mode (m_vs t1) = VS_SERVICE /\
  entityError t1 = false /\
  t' = fst (reset clk t1) /\
  m_in_safe_plan t' = false /\
  entityError t' = true.
Proof.
  cbv zeta. repeat split; reflexivity.
Qed.

(** ** The maneuver invariant *)

Lemma last_maneuver_from (out : list Msg) (acc : option Msg) :
  fold_left (fun acc m => if is_maneuver m then Some m else acc) out acc
  = match last_maneuver out with Some m => Some m | None => acc end.
Proof.
  unfold last_maneuver. revert acc.
  induction out as [|m out IH]; intro acc; cbn; [reflexivity|].
  rewrite IH. rewrite (IH (if is_maneuver m then Some m else None)).
  destruct (fold_left _ out None); [reflexivity|].
  destruct (is_maneuver m); reflexivity.
Qed.

Lemma last_maneuver_app (bus out : list Msg) :
  last_maneuver (bus ++ out)
  = match last_maneuver out with
    | Some m => Some m
    | None => last_maneuver bus
    end.
Proof.
  unfold last_maneuver at 1. rewrite fold_left_app. apply last_maneuver_from.
Qed.

Section ManeuverInvariant.

Variable ctx : Context.

Ltac consistent_done :=
  cbn in *; rewrite ?last_maneuver_app, ?app_nil_r; cbn;
  first [ assumption
        | reflexivity
        | split; [assumption|eexists; split; reflexivity] ].

Ltac consistent_by_cases om :=
  destruct om; cbn; intros H; repeat (case_if; cbn); consistent_done.

Lemma setInitialState_consistent (args : Arguments) (clk : Clock) :
  maneuver_consistent (initial args clk) [].
Proof. reflexivity. Qed.

Lemma consume_Abort_consistent (clk : Clock) :
  keeps_consistent (consume_Abort ctx clk).
Proof.
  intros t bus. unfold maneuver_consistent. act_unfold. destruct_task t.
  unfold nonOverridableLoops. consistent_by_cases om.
Qed.

Lemma consume_ControlLoops_consistent (msg : ControlLoops) (clk : Clock) :
  keeps_consistent (consume_ControlLoops ctx msg clk).
Proof.
  intros t bus. unfold maneuver_consistent. act_unfold. destruct_task t.
  destruct msg as [en mask]. unfold nonOverridableLoops.
  destruct en; consistent_by_cases om.
Qed.

Lemma consume_EntityMonitoringState_consistent
    (msg : EntityMonitoringState) (clk : Clock) :
  keeps_consistent (consume_EntityMonitoringState ctx msg clk).
Proof.
  intros t bus. unfold consume_EntityMonitoringState, andThen.
  destruct (recordEntityErrors_spec msg clk t) as (Ho & _ & _ & _ & Hvs).
  destruct (recordEntityErrors msg clk t) as [t1 o1]. cbn in Ho, Hvs.
  subst o1. intro H.
  assert (H1 : maneuver_consistent t1 bus).
  { unfold maneuver_consistent in *. rewrite Hvs. cbn. exact H. }
  clear H Hvs t. revert H1.
  unfold maneuver_consistent. act_unfold. destruct_task t1.
  unfold nonOverridableLoops, teleoperationOn, maneuverIs.
  consistent_by_cases om.
Qed.

Lemma consume_ManeuverControlState_consistent
    (msg : ManeuverControlState) (clk : Clock) :
  keeps_consistent (consume_ManeuverControlState ctx msg clk).
Proof.
  intros t bus. unfold maneuver_consistent. act_unfold. destruct_task t.
  destruct msg as [src ts st eta info].
  destruct st; consistent_by_cases om.
Qed.

Lemma consume_PlanControl_consistent (msg : PlanControl) :
  keeps_consistent (consume_PlanControl ctx msg).
Proof.
  intros t bus. unfold maneuver_consistent. act_unfold. destruct_task t.
  consistent_by_cases om.
Qed.

Lemma consume_VehicleCommand_consistent (cmd : VehicleCommand) (clk : Clock) :
  after_epoch clk ->
  keeps_consistent (consume_VehicleCommand ctx cmd clk).
Proof.
  intros Hclk t bus. unfold maneuver_consistent. act_unfold. destruct_task t.
  unfold nonOverridableLoops.
  destruct cmd as [src ent ty rid cmd man].
  destruct ty, cmd, man; consistent_by_cases om.
Qed.

Lemma task_consistent (clk : Clock) : keeps_consistent (task ctx clk).
Proof.
  intros t bus. unfold maneuver_consistent. act_unfold. destruct_task t.
  unfold nonOverridableLoops. consistent_by_cases om.
Qed.

Lemma step_consistent (clk : Clock) (ev : Event) :
  after_epoch clk -> keeps_consistent (step ctx clk ev).
Proof.
  intro Hclk. destruct ev as [|msg|msg|msg|msg|cmd|]; cbn [step].
  - apply consume_Abort_consistent.
  - apply consume_ControlLoops_consistent.
  - apply consume_EntityMonitoringState_consistent.
  - apply consume_ManeuverControlState_consistent.
  - apply consume_PlanControl_consistent.
  - apply consume_VehicleCommand_consistent. exact Hclk.
  - apply task_consistent.
Qed.

Lemma run_consistent (evs : list (Clock * Event)) (t : Task)
    (bus : list Msg) :
  Forall (fun ce => after_epoch (fst ce)) evs ->
  maneuver_consistent t bus ->
  maneuver_consistent (fst (run ctx evs t bus)) (snd (run ctx evs t bus)).
Proof.
  intro Hevs. revert t bus.
  induction Hevs as [|[clk ev] evs Hclk _ IH]; intros t bus H; [exact H|].
  cbn [run]. pose proof (step_consistent clk ev Hclk t bus H) as Hstep.
  destruct (step ctx clk ev t) as [t' out]. apply IH. exact Hstep.
Qed.

(** C8.  In every state the supervisor reaches from its initial state by
    message handlers and periodic ticks (the wall clock never reading before
    the epoch), [maneuver_stime >= 0] holds exactly when [op_mode] is
    MANEUVER, and in MANEUVER [maneuver_type] is the message id of the most
    recently dispatched maneuver payload. *)
Theorem maneuver_invariant_reachable
    (args : Arguments) (clk0 : Clock) (evs : list (Clock * Event)) :
  Forall (fun ce => after_epoch (fst ce)) evs ->
  let res := run ctx evs (initial args clk0) [] in
  ((0 <= maneuver_stime (m_vs (fst res)))%Q
   <-> op_mode (m_vs (fst res)) = VS_MANEUVER) /\
  (op_mode (m_vs (fst res)) = VS_MANEUVER ->
   exists m ts, last_maneuver (snd res) = Some (MManeuver m ts)
                /\ maneuver_type (m_vs (fst res)) = man_id m).
Proof.
  intros Hevs res.
  pose proof (run_consistent evs (initial args clk0) []
                Hevs (setInitialState_consistent args clk0)) as H.
  fold res in H. unfold maneuver_consistent in H.
  destruct (op_mode (m_vs (fst res))).
  1-3, 5: split; [split; [rewrite H; intro Hle; exfalso; apply Hle;
                          reflexivity
                         |discriminate]
                 |discriminate].
  destruct H as [Hle [m [Hlast Hty]]]. split.
  - split; intro; [reflexivity|exact Hle].
  - intros _. exists m, (maneuver_stime (m_vs (fst res))). split; assumption.
Qed.

End ManeuverInvariant.

(** The theorem on a run of the booted vehicle: Goto accepted at time 1, a
    tick, an Abort, and Goto accepted again at time 4. *)
Lemma maneuver_invariant_reachable_witness :
  let res := run imc
      [(clock_at 1, EvVehicleCommand (request VC_EXEC_MANEUVER (Some Goto)));
       (clock_at 2, EvTick);
       (clock_at 3, EvAbort);
       (clock_at 4, EvVehicleCommand (request VC_EXEC_MANEUVER (Some Goto)))]
      (initial gps_args (clock_at 0)) [] in
  ((0 <= maneuver_stime (m_vs (fst res)))%Q
   <-> op_mode (m_vs (fst res)) = VS_MANEUVER) /\
  (op_mode (m_vs (fst res)) = VS_MANEUVER ->
   exists m ts, last_maneuver (snd res) = Some (MManeuver m ts)
                /\ maneuver_type (m_vs (fst res)) = man_id m).
Proof.
  apply (maneuver_invariant_reachable imc gps_args (clock_at 0)).
  repeat constructor; unfold after_epoch; vm_compute; discriminate.
Defined.

(** * Further properties of the supervisor *)

(** ** Support *)

Lemma entityError_nonzero (t : Task) :
  entityError t = true -> error_count (m_vs t) <> 0.
Proof.
  unfold entityError.
  destruct (Z.eqb_spec (error_count (m_vs t)) 0); [discriminate|auto].
Qed.

Lemma run_preserves (ctx : Context) (P : Task -> Prop)
    (Q : Clock -> Event -> Prop) :
  (forall clk ev t, Q clk ev -> P t -> P (fst (step ctx clk ev t))) ->
  forall evs t bus,
    Forall (fun ce => Q (fst ce) (snd ce)) evs ->
    P t -> P (fst (run ctx evs t bus)).
Proof.
  intros Hstep evs. induction evs as [|[clk ev] evs IH]; intros t bus Hq Hp;
    [exact Hp|].
  inversion Hq as [|ce evs' Hq1 Hq2]; subst. cbn [run].
  pose proof (Hstep clk ev t Hq1 Hp) as Hp'.
  destruct (step ctx clk ev t) as [t' out]. apply IH; assumption.
Qed.

(** ** EXTERNAL and ERROR are grounded *)

Section Grounded.
Variable ctx : Context.

Ltac use_entityError :=
  repeat match goal with
         | H : _ && _ = true |- _ =>
             apply andb_true_iff in H; destruct H
         | H : entityError _ = true |- _ =>
             apply entityError_nonzero in H; cbn in H
         end.

Ltac grounded_done :=
  cbn in *; use_entityError;
  split; intro; first [discriminate | assumption | tauto | lia ].

Lemma consume_EntityMonitoringState_grounded
    (msg : EntityMonitoringState) (clk : Clock) (t : Task) :
  mode_grounded t ->
  mode_grounded (fst (consume_EntityMonitoringState ctx msg clk t)).
Proof.
  unfold consume_EntityMonitoringState, andThen. intros [He _].
  destruct (recordEntityErrors_spec msg clk t) as (_ & _ & _ & _ & Hvs).
  destruct (recordEntityErrors msg clk t) as [t1 o1]. cbn in Hvs.
  assert (He1 : op_mode (m_vs t1) = VS_EXTERNAL -> control_loops (m_vs t1) <> 0)
    by (rewrite Hvs; exact He).
  clear He Hvs t. revert He1.
  unfold mode_grounded. act_unfold. destruct_task t1.
  unfold nonOverridableLoops, teleoperationOn, maneuverIs.
  destruct om; cbn; intros He; repeat (case_if; cbn); grounded_done.
Qed.

Lemma step_grounded (clk : Clock) (ev : Event) (t : Task) :
  mode_grounded t -> mode_grounded (fst (step ctx clk ev t)).
Proof.
  destruct ev as [|msg|msg|msg|msg|cmd|]; cbn [step].
  - unfold mode_grounded. act_unfold. destruct_task t.
    unfold nonOverridableLoops.
    destruct om; cbn; intros [He Hr]; repeat (case_if; cbn); grounded_done.
  - unfold mode_grounded. act_unfold. destruct_task t.
    destruct msg as [en mask]. unfold nonOverridableLoops.
    destruct en, om; cbn; intros [He Hr]; repeat (case_if; cbn);
      try grounded_done.
    all: cbn in *; split; intro; try discriminate; try tauto.
    all: try (intro Hz; apply Z.lor_eq_0_iff in Hz; tauto).
    all: try (apply Z.eqb_neq; assumption).
    match goal with
    | Hb : negb _ && _ = false |- _ =>
        specialize (He eq_refl); apply Z.eqb_neq in He; rewrite He in Hb;
        apply Z.eqb_neq; exact Hb
    end.
  - apply consume_EntityMonitoringState_grounded.
  - unfold mode_grounded. act_unfold. destruct_task t.
    destruct msg as [src ts st eta info].
    destruct st, om; cbn; intros [He Hr]; repeat (case_if; cbn); grounded_done.
  - unfold mode_grounded. act_unfold. destruct_task t.
    destruct om; cbn; intros [He Hr]; repeat (case_if; cbn); grounded_done.
  - unfold mode_grounded. act_unfold. destruct_task t.
    unfold nonOverridableLoops.
    destruct cmd as [src ent ty rid cmd man].
    destruct ty, cmd, man, om; cbn; intros [He Hr]; repeat (case_if; cbn);
      grounded_done.
  - unfold mode_grounded. act_unfold. destruct_task t.
    unfold nonOverridableLoops.
    destruct om; cbn; intros [He Hr]; repeat (case_if; cbn); grounded_done.
Qed.
End Grounded.

(** ** Flags and maneuver fields *)

Lemma land_mod_lnot (x : Z) : Z.land (x mod 256) (Z.lnot x) = 0.
Proof.
  apply Z.bits_inj'. intros n Hn.
  rewrite Z.land_spec, Z.bits_0, Z.lnot_spec by assumption.
  change 256 with (2 ^ 8).
  destruct (Z.lt_ge_cases n 8) as [Hlt|Hge].
  - rewrite Z.mod_pow2_bits_low by lia. apply andb_negb_r.
  - rewrite Z.mod_pow2_bits_high by lia. reflexivity.
Qed.

Lemma lor_mod_same (x : Z) : Z.lor (x mod 256) x = x.
Proof.
  apply Z.bits_inj'. intros n Hn. rewrite Z.lor_spec.
  change 256 with (2 ^ 8).
  destruct (Z.lt_ge_cases n 8) as [Hlt|Hge].
  - rewrite Z.mod_pow2_bits_low by lia. apply orb_diag.
  - rewrite Z.mod_pow2_bits_high by lia. reflexivity.
Qed.


Section Fields.
Variable ctx : Context.

Ltac fields_done :=
  cbn in *;
  repeat match goal with
         | H : _ /\ _ |- _ => destruct H
         | H : _ \/ _ |- _ => destruct H
         end;
  subst; cbn;
  rewrite ?land_mod_lnot, ?lor_mod_same;
  first [ assumption
        | reflexivity
        | tauto
        | repeat split; reflexivity
        | left; reflexivity
        | right; reflexivity ].

Ltac fields_by_cases om :=
  destruct om; cbn; intros H; repeat (case_if; cbn); fields_done.

Lemma step_maneuver_fields_idle (clk : Clock) (ev : Event) (t : Task) :
  maneuver_fields_idle ctx t ->
  maneuver_fields_idle ctx (fst (step ctx clk ev t)).
Proof.
  destruct ev as [|msg|msg|msg|msg|cmd|]; cbn [step].
  - unfold maneuver_fields_idle. act_unfold. destruct_task t.
    unfold nonOverridableLoops, clear_MANEUVER_DONE, set_MANEUVER_DONE.
    fields_by_cases om.
  - unfold maneuver_fields_idle. act_unfold. destruct_task t.
    destruct msg as [en mask].
    unfold nonOverridableLoops, clear_MANEUVER_DONE, set_MANEUVER_DONE.
    destruct en; fields_by_cases om.
  - unfold consume_EntityMonitoringState, andThen. intro H.
    destruct (recordEntityErrors_spec msg clk t) as (_ & _ & _ & _ & Hvs).
    destruct (recordEntityErrors msg clk t) as [t1 o1]. cbn in Hvs.
    assert (H1 : maneuver_fields_idle ctx t1).
    { unfold maneuver_fields_idle in *. rewrite Hvs. exact H. }
    clear H Hvs t. revert H1.
    unfold maneuver_fields_idle. act_unfold. destruct_task t1.
    unfold nonOverridableLoops, teleoperationOn, maneuverIs,
      clear_MANEUVER_DONE, set_MANEUVER_DONE.
    fields_by_cases om.
  - unfold maneuver_fields_idle. act_unfold. destruct_task t.
    destruct msg as [src ts st eta info].
    unfold nonOverridableLoops, clear_MANEUVER_DONE, set_MANEUVER_DONE.
    destruct st; fields_by_cases om.
  - unfold maneuver_fields_idle. act_unfold. destruct_task t.
    fields_by_cases om.
  - unfold maneuver_fields_idle. act_unfold. destruct_task t.
    unfold nonOverridableLoops, clear_MANEUVER_DONE, set_MANEUVER_DONE.
    destruct cmd as [src ent ty rid cmd man].
    destruct ty, cmd, man; fields_by_cases om.
  - unfold maneuver_fields_idle. act_unfold. destruct_task t.
    unfold nonOverridableLoops, clear_MANEUVER_DONE, set_MANEUVER_DONE.
    fields_by_cases om.
Qed.
End Fields.

(** ** The switch timer *)

Section Timer.
Variable ctx : Context.

Ltac timer_done :=
  cbn in *;
  first
    [ assumption
    | repeat match goal with
             | H : _ /\ _ |- _ => destruct H
             | H : _ \/ _ |- _ => destruct H
             end;
      subst; cbn;
      rewrite ?land_mod_lnot, ?lor_mod_same;
      first [ assumption
            | reflexivity
            | left; split; reflexivity
            | right; split; [reflexivity|assumption]
            | right; split; assumption ] ].

Ltac timer_by_cases om :=
  destruct om; cbn; intros Hf H; repeat (case_if; cbn); timer_done.

Lemma step_switch_timer (clk : Clock) (ev : Event) (t : Task) :
  clock_started clk ->
  maneuver_fields_idle ctx t ->
  switch_timer_follows_mode ctx t ->
  switch_timer_follows_mode ctx (fst (step ctx clk ev t)).
Proof.
  unfold clock_started. intro Hclk.
  pose proof (float_of_double_nonneg _ Hclk) as Hstored.
  destruct ev as [|msg|msg|msg|msg|cmd|]; cbn [step].
  - unfold maneuver_fields_idle, switch_timer_follows_mode. act_unfold. destruct_task t.
    unfold nonOverridableLoops, clear_MANEUVER_DONE, set_MANEUVER_DONE.
    timer_by_cases om.
  - unfold maneuver_fields_idle, switch_timer_follows_mode. act_unfold. destruct_task t.
    destruct msg as [en mask].
    unfold nonOverridableLoops, clear_MANEUVER_DONE, set_MANEUVER_DONE.
    destruct en; timer_by_cases om.
  - unfold consume_EntityMonitoringState, andThen. intros Hf H.
    destruct (recordEntityErrors_spec msg clk t) as (_ & Hsw & _ & _ & Hvs).
    destruct (recordEntityErrors msg clk t) as [t1 o1]. cbn in Hsw, Hvs.
    assert (H1 : switch_timer_follows_mode ctx t1).
    { unfold switch_timer_follows_mode in *. rewrite Hvs, Hsw. exact H. }
    assert (Hf1 : maneuver_fields_idle ctx t1).
    { unfold maneuver_fields_idle in *. rewrite Hvs. exact Hf. }
    clear H Hf Hvs Hsw t. revert Hf1 H1.
    unfold maneuver_fields_idle, switch_timer_follows_mode. act_unfold. destruct_task t1.
    unfold nonOverridableLoops, teleoperationOn, maneuverIs,
      clear_MANEUVER_DONE, set_MANEUVER_DONE.
    timer_by_cases om.
  - unfold maneuver_fields_idle, switch_timer_follows_mode. act_unfold. destruct_task t.
    destruct msg as [src ts st eta info].
    unfold nonOverridableLoops, clear_MANEUVER_DONE, set_MANEUVER_DONE.
    destruct st; timer_by_cases om.
  - unfold maneuver_fields_idle, switch_timer_follows_mode. act_unfold. destruct_task t.
    timer_by_cases om.
  - unfold maneuver_fields_idle, switch_timer_follows_mode. act_unfold. destruct_task t.
    unfold nonOverridableLoops, clear_MANEUVER_DONE, set_MANEUVER_DONE.
    destruct cmd as [src ent ty rid cmd man].
    destruct ty, cmd, man; timer_by_cases om.
  - unfold maneuver_fields_idle, switch_timer_follows_mode. act_unfold. destruct_task t.
    unfold nonOverridableLoops, clear_MANEUVER_DONE, set_MANEUVER_DONE.
    timer_by_cases om.
Qed.
End Timer.

(** ** Abort and STOP_MANEUVER from any mode *)

Section Stopping.

Variable ctx : Context.

(** X1.  An Abort consumed outside ERROR always ends in SERVICE or ERROR,
    also from EXTERNAL with non-overridable loops enabled: [reset] has
    zeroed the loops before the guard on them is read.  It dispatches
    StopManeuver when in MANEUVER, then IdleManeuver and the new state; it
    ends in SERVICE when the task was in SERVICE or no entity error is
    pending and in ERROR otherwise, with no loop enabled, no safe plan and
    the switch timer unarmed. *)
Theorem consume_Abort_outside_error (clk : Clock) (t : Task) :
  op_mode (m_vs t) <> VS_ERROR ->
  let res := consume_Abort ctx clk t in
  snd res = stop_if_maneuvering t
            ++ [MIdleManeuver; MVehicleState (m_vs (fst res))] /\
  op_mode (m_vs (fst res)) = mode_after_stop t /\
  control_loops (m_vs (fst res)) = 0 /\
  m_in_safe_plan (fst res) = false /\
  m_switch_time (fst res) = (-1)%Q /\
  last_error (m_vs (fst res)) = "got abort request" /\
  last_error_time (m_vs (fst res)) = Clock_getSinceEpoch clk.
Proof.
  unfold stop_if_maneuvering, mode_after_stop. act_unfold. destruct_task t.
  unfold nonOverridableLoops, entityError.
  destruct om; cbn; intro Hne; try contradiction;
    destruct (ec =? 0); cbn;
    destruct (Z.of_nat (List.length (safe_ents ar)) =? 0); cbn;
    repeat split; reflexivity.
Qed.

(** X2.  A STOP_MANEUVER request received outside ERROR does what an Abort
    does and answers SUCCESS: StopManeuver when in MANEUVER, IdleManeuver,
    the new state, then the reply "OK"; the task ends in SERVICE or ERROR,
    never in EXTERNAL, with no loop enabled and no safe plan. *)
Theorem stopManeuver_outside_error
    (cmd : VehicleCommand) (clk : Clock) (t : Task) :
  vc_type cmd = VC_REQUEST ->
  vc_command cmd = VC_STOP_MANEUVER ->
  op_mode (m_vs t) <> VS_ERROR ->
  let res := consume_VehicleCommand ctx cmd clk t in
  snd res = stop_if_maneuvering t
            ++ [MIdleManeuver; MVehicleState (m_vs (fst res));
                replyTo cmd VC_SUCCESS "OK"] /\
  op_mode (m_vs (fst res)) = mode_after_stop t /\
  control_loops (m_vs (fst res)) = 0 /\
  m_in_safe_plan (fst res) = false /\
  m_switch_time (fst res) = (-1)%Q.
Proof.
  intros Hty Hcmd.
  unfold stop_if_maneuvering, mode_after_stop, replyTo. act_unfold.
  rewrite Hty, Hcmd. destruct_task t.
  unfold nonOverridableLoops, entityError.
  destruct om; cbn; intro Hne; try contradiction;
    destruct (ec =? 0); cbn;
    destruct (Z.of_nat (List.length (safe_ents ar)) =? 0); cbn;
    repeat split; reflexivity.
Qed.

End Stopping.

(** The theorem at the vehicle under teleoperation, a non-overridable loop
    enabled. *)
Lemma consume_Abort_outside_error_witness :
  let res := consume_Abort imc (clock_at 2) teleoperated in
  snd res = [MIdleManeuver; MVehicleState (m_vs (fst res))] /\
  op_mode (m_vs (fst res)) = VS_SERVICE /\
  control_loops (m_vs (fst res)) = 0 /\
  m_in_safe_plan (fst res) = false /\
  m_switch_time (fst res) = (-1)%Q /\
  last_error (m_vs (fst res)) = "got abort request" /\
  last_error_time (m_vs (fst res)) = Clock_getSinceEpoch (clock_at 2).
Proof.
  apply (consume_Abort_outside_error imc (clock_at 2) teleoperated).
  discriminate.
Defined.

(** The theorem at the vehicle executing Goto. *)
Lemma stopManeuver_outside_error_witness :
  let cmd := request VC_STOP_MANEUVER None in
  let res := consume_VehicleCommand imc cmd (clock_at 2) maneuvering in
  snd res = [MStopManeuver; MIdleManeuver; MVehicleState (m_vs (fst res));
             replyTo cmd VC_SUCCESS "OK"] /\
  op_mode (m_vs (fst res)) = VS_SERVICE /\
  control_loops (m_vs (fst res)) = 0 /\
  m_in_safe_plan (fst res) = false /\
  m_switch_time (fst res) = (-1)%Q.
Proof.
  apply (stopManeuver_outside_error imc (request VC_STOP_MANEUVER None)
           (clock_at 2) maneuvering); try reflexivity.
  discriminate.
Defined.

(** ** CALIBRATE *)

Section Calibrate.

Variable ctx : Context.

(** X3.  A CALIBRATE request is refused in EXTERNAL (FAILURE reply, task
    unchanged) and accepted in every other mode: after a reset when in
    MANEUVER, the task enters CALIBRATION, dispatches its state, a
    Calibration message carrying the calibration time truncated to whole
    seconds and a SUCCESS reply, and arms the switch timer with the clock
    reading rounded to single precision.  The calibration time is taken to
    truncate to a 16-bit number and the clock reading to lie in the range
    of [float], outside which the two conversions are undefined. *)
Theorem startCalibration_accepted_unless_external
    (cmd : VehicleCommand) (clk : Clock) (t : Task) :
  vc_type cmd = VC_REQUEST ->
  vc_command cmd = VC_CALIBRATE ->
  calibration_defined t clk ->
  let res := consume_VehicleCommand ctx cmd clk t in
  match op_mode (m_vs t) with
  | VS_EXTERNAL =>
      res = (t, [replyTo cmd VC_FAILURE
                   "cannot calibrate: vehicle is in external mode"])
  | _ =>
      snd res = reset_if_maneuvering t
                ++ [MVehicleState (m_vs (fst res));
                    MCalibration (to_uint16 (calibration_time (m_args t)));
                    replyTo cmd VC_SUCCESS "calibrating vehicle"] /\
      op_mode (m_vs (fst res)) = VS_CALIBRATION /\
      m_switch_time (fst res) = float_of_double (Clock_get clk)
  end.
Proof.
  intros Hty Hcmd _. unfold reset_if_maneuvering, replyTo. act_unfold.
  rewrite Hty, Hcmd. destruct_task t.
  destruct om; cbn; repeat split; reflexivity.
Qed.


End Calibrate.

(** The theorem at the vehicle executing Goto, the request arriving at time
    16777217, which the switch timer keeps as 16777216. *)
Lemma startCalibration_accepted_unless_external_witness :
  let cmd := request VC_CALIBRATE None in
  let res := consume_VehicleCommand imc cmd (clock_at 16777217) maneuvering in
  snd res = [MStopManeuver; MIdleManeuver; MVehicleState (m_vs (fst res));
             MCalibration (Some 10);
             replyTo cmd VC_SUCCESS "calibrating vehicle"] /\
  op_mode (m_vs (fst res)) = VS_CALIBRATION /\
  m_switch_time (fst res) = 16777216%Q.
Proof.
  pose proof (startCalibration_accepted_unless_external imc
                (request VC_CALIBRATE None) (clock_at 16777217) maneuvering
                eq_refl eq_refl) as H.
  assert (Hd : calibration_defined maneuvering (clock_at 16777217))
    by (repeat split; vm_compute; discriminate).
  assert (Hf : float_of_double (Clock_get (clock_at 16777217))
               = 16777216%Q) by (vm_compute; reflexivity).
  specialize (H Hd). cbv zeta in H.
  change (op_mode (m_vs maneuvering)) with VS_MANEUVER in H. cbv iota in H.
  rewrite Hf in H. exact H.
Defined.


(** ** What an accepted maneuver resets *)

Section Restart.

Variable ctx : Context.

(** X5.  An accepted EXEC_MANEUVER, whether it starts a maneuver or replaces
    the one in progress, records the payload's id and dispatch timestamp,
    sets the eta to unknown, wipes [last_error] and [last_error_time],
    clears MANEUVER_DONE and unarms the switch timer; it does not reset:
    the enabled loops, the safe-plan flag and the entity errors stay as
    they are. *)
Theorem startManeuver_restarts_maneuver
    (cmd : VehicleCommand) (m : Maneuver) (clk : Clock) (t : Task) :
  vc_type cmd = VC_REQUEST ->
  vc_command cmd = VC_EXEC_MANEUVER ->
  vc_maneuver cmd = Some m ->
  op_mode (m_vs t) <> VS_EXTERNAL ->
  let t' := fst (consume_VehicleCommand ctx cmd clk t) in
  m_vs t' =
    mkVehicleState VS_MANEUVER (error_count (m_vs t)) (error_ents (m_vs t))
      (man_id m) (dispatch_timestamp clk) 0xFFFF (control_loops (m_vs t))
      (Z.land (flags (m_vs t)) (Z.lnot (VFLG_MANEUVER_DONE ctx)) mod 256)
      "" (-1) /\
  m_switch_time t' = (-1)%Q /\
  m_in_safe_plan t' = m_in_safe_plan t /\
  m_err_timer t' = m_err_timer t.
Proof.
  intros Hty Hcmd Hman Hext. act_unfold. rewrite Hty, Hcmd, Hman.
  destruct_task t. cbn in Hext.
  destruct om; cbn; try contradiction; repeat split; reflexivity.
Qed.

End Restart.

(** The theorem at the faulted vehicle: the maneuver is accepted in ERROR
    and the GPS error stays pending. *)
Lemma startManeuver_restarts_maneuver_witness :
  let t' := fst (consume_VehicleCommand imc
                   (request VC_EXEC_MANEUVER (Some Goto)) (clock_at 2)
                   faulted) in
  m_vs t' = mkVehicleState VS_MANEUVER 1 "GPS" 450 1000002 0xFFFF 0 0 "" (-1)
  /\ m_switch_time t' = (-1)%Q
  /\ m_in_safe_plan t' = false
  /\ m_err_timer t' = m_err_timer faulted.
Proof.
  apply (startManeuver_restarts_maneuver imc
           (request VC_EXEC_MANEUVER (Some Goto)) Goto (clock_at 2) faulted);
    try reflexivity; discriminate.
Defined.

(** ** ManeuverControlState *)

Section ManeuverProgress.

Variable ctx : Context.

(** X7.  A ManeuverControlState from another system, or received outside
    MANEUVER, leaves the task unchanged and dispatches nothing. *)
Theorem consume_ManeuverControlState_ignored
    (msg : ManeuverControlState) (clk : Clock) (t : Task) :
  mcs_source msg <> getSystemId ctx \/ op_mode (m_vs t) <> VS_MANEUVER ->
  consume_ManeuverControlState ctx msg clk t = (t, []).
Proof.
  intros H. act_unfold.
  destruct (Z.eqb_spec (mcs_source msg) (getSystemId ctx)) as [Hs|Hs]; cbn;
    [|reflexivity].
  destruct H as [H|H]; [contradiction|].
  destruct_task t. cbn in H. destruct om; try reflexivity. contradiction.
Qed.

(** X8.  In MANEUVER an EXECUTING report of the vehicle's own system changes
    [maneuver_eta] only; the state is dispatched when the eta differs from
    the recorded one, and the same report consumed again changes and
    dispatches nothing. *)
Theorem executing_updates_eta_once
    (msg : ManeuverControlState) (clk clk' : Clock) (t : Task) :
  mcs_source msg = getSystemId ctx ->
  mcs_state msg = MCS_EXECUTING ->
  op_mode (m_vs t) = VS_MANEUVER ->
  let res := consume_ManeuverControlState ctx msg clk t in
  fst res = with_vs (set_maneuver_eta (mcs_eta msg)) t /\
  snd res = (if mcs_eta msg =? maneuver_eta (m_vs t) then []
             else [MVehicleState (m_vs (fst res))]) /\
  consume_ManeuverControlState ctx msg clk' (fst res) = (fst res, []).
Proof.
  intros Hsrc Hst Hm. act_unfold. rewrite Hsrc, Hst, Z.eqb_refl.
  destruct_task t. cbn in Hm. subst om. cbn.
  destruct (Z.eqb_spec (mcs_eta msg) me) as [He|He]; cbn.
  - subst me. rewrite Z.eqb_refl. repeat split; reflexivity.
  - rewrite Z.eqb_refl. repeat split; reflexivity.
Qed.

(** X9.  In MANEUVER an ERROR report of the vehicle's own system records
    "<maneuver> maneuver error: <info>" with the report's timestamp, leaves
    MANEUVER for SERVICE (ERROR when a critical entity error is pending) and
    resets afterwards: the state and IdleManeuver are dispatched, and no
    StopManeuver; the dispatched state still shows the loops that [reset]
    then clears. *)
Theorem maneuver_error_returns_without_stop
    (msg : ManeuverControlState) (clk : Clock) (t : Task) :
  mcs_source msg = getSystemId ctx ->
  mcs_state msg = MCS_ERROR ->
  op_mode (m_vs t) = VS_MANEUVER ->
  let res := consume_ManeuverControlState ctx msg clk t in
  (exists vs, snd res = [MVehicleState vs; MIdleManeuver]
              /\ m_vs (fst res) = set_control_loops 0 vs) /\
  op_mode (m_vs (fst res)) = (if entityError t then VS_ERROR else VS_SERVICE) /\
  last_error (m_vs (fst res))
  = (getAbbrevFromId ctx (maneuver_type (m_vs t)) ++ " maneuver error: "
     ++ mcs_info msg)%string /\
  last_error_time (m_vs (fst res)) = mcs_timestamp msg /\
  maneuver_type (m_vs (fst res)) = 0xFFFF /\
  m_in_safe_plan (fst res) = false /\
  m_switch_time (fst res) = (-1)%Q.
Proof.
  intros Hsrc Hst Hm. act_unfold. rewrite Hsrc, Hst, Z.eqb_refl.
  destruct_task t. cbn in Hm. subst om. unfold entityError. cbn.
  repeat (case_if; cbn);
    (split; [eexists; split; reflexivity|]); repeat split; reflexivity.
Qed.

End ManeuverProgress.

(** The theorem at the booted vehicle, which is in SERVICE. *)
Lemma consume_ManeuverControlState_ignored_witness :
  consume_ManeuverControlState imc (own_mcs imc MCS_DONE 1000002)
    (clock_at 2) booted
  = (booted, []).
Proof.
  apply consume_ManeuverControlState_ignored. right. discriminate.
Defined.

(** The theorem at the vehicle executing Goto and an eta of 30 seconds. *)
Lemma executing_updates_eta_once_witness :
  let msg := mkManeuverControlState 1 1000002 MCS_EXECUTING 30 "" in
  let res := consume_ManeuverControlState imc msg (clock_at 2) maneuvering in
  fst res = with_vs (set_maneuver_eta 30) maneuvering /\
  snd res = [MVehicleState (m_vs (fst res))] /\
  consume_ManeuverControlState imc msg (clock_at 3) (fst res) = (fst res, []).
Proof.
  exact (executing_updates_eta_once imc
           (mkManeuverControlState 1 1000002 MCS_EXECUTING 30 "")
           (clock_at 2) (clock_at 3) maneuvering eq_refl eq_refl eq_refl).
Defined.

(** The theorem at the vehicle executing Goto. *)
Lemma maneuver_error_returns_without_stop_witness :
  let msg := mkManeuverControlState 1 1000002 MCS_ERROR 0 "no path" in
  let res := consume_ManeuverControlState imc msg (clock_at 2) maneuvering in
  (exists vs, snd res = [MVehicleState vs; MIdleManeuver]
              /\ m_vs (fst res) = set_control_loops 0 vs) /\
  op_mode (m_vs (fst res)) = VS_SERVICE /\
  last_error (m_vs (fst res)) = "Goto maneuver error: no path" /\
  last_error_time (m_vs (fst res)) = 1000002%Q /\
  maneuver_type (m_vs (fst res)) = 0xFFFF /\
  m_in_safe_plan (fst res) = false /\
  m_switch_time (fst res) = (-1)%Q.
Proof.
  exact (maneuver_error_returns_without_stop imc
           (mkManeuverControlState 1 1000002 MCS_ERROR 0 "no path")
           (clock_at 2) maneuvering eq_refl eq_refl eq_refl).
Defined.

(** ** EntityMonitoringState outside CALIBRATION *)

Section EntityErrors.

Variable ctx : Context.

(** The loops and the maneuver in progress are what the handler recorded
    them from. *)
Lemma recordEntityErrors_guards (msg : EntityMonitoringState) (clk : Clock)
    (t : Task) :
  let t1 := fst (recordEntityErrors msg clk t) in
  nonOverridableLoops ctx t1 = nonOverridableLoops ctx t /\
  teleoperationOn ctx t1 = teleoperationOn ctx t /\
  op_mode (m_vs t1) = op_mode (m_vs t) /\
  control_loops (m_vs t1) = control_loops (m_vs t).
Proof.
  destruct (recordEntityErrors_spec msg clk t) as (_ & _ & _ & _ & Hvs).
  cbv zeta. unfold nonOverridableLoops, teleoperationOn, maneuverIs.
  rewrite Hvs. repeat split; reflexivity.
Qed.

(** X10.  In EXTERNAL or MANEUVER, while a non-overridable loop is enabled or
    the maneuver is a Teleoperation, an EntityMonitoringState is recorded
    and nothing else: no mode change, no reset, nothing dispatched, however
    critical the errors. *)
Theorem entity_error_overridden
    (msg : EntityMonitoringState) (clk : Clock) (t : Task) :
  op_mode (m_vs t) = VS_EXTERNAL \/ op_mode (m_vs t) = VS_MANEUVER ->
  nonOverridableLoops ctx t = true \/ teleoperationOn ctx t = true ->
  let res := consume_EntityMonitoringState ctx msg clk t in
  res = (fst (recordEntityErrors msg clk t), []) /\
  op_mode (m_vs (fst res)) = op_mode (m_vs t) /\
  control_loops (m_vs (fst res)) = control_loops (m_vs t).
Proof.
  intros Hmode Hguard.
  destruct (recordEntityErrors_guards msg clk t) as (Hno & Htele & Hom & Hcl).
  destruct (recordEntityErrors_spec msg clk t) as (Ho & _).
  assert (Hres : consume_EntityMonitoringState ctx msg clk t
                 = (fst (recordEntityErrors msg clk t), [])).
  { unfold consume_EntityMonitoringState, andThen.
    destruct (recordEntityErrors msg clk t) as [t1 o1].
    cbn [fst snd] in *. subst o1.
    unfold whenA, ifA, errorMode, externalMode, maneuverMode, modeIs, nop.
    rewrite Hom, Hno, Htele.
    destruct Hmode as [-> | ->]; cbn;
      destruct Hguard as [-> | ->]; cbn;
      rewrite ?andb_false_r; reflexivity. }
  cbv zeta. rewrite Hres. cbn [fst].
  split; [reflexivity|]. split; assumption.
Qed.

(** X11.  In ERROR the stored [error_count] is the sum of the two counts on
    8 bits; the task returns to SERVICE, dispatching its state, exactly when
    that sum is zero modulo 256 (a report whose counts add up to 256 clears
    the error as a report of no error does), and otherwise stays in ERROR
    and dispatches nothing. *)
Theorem entity_errors_cleared_in_error
    (msg : EntityMonitoringState) (clk : Clock) (t : Task) :
  op_mode (m_vs t) = VS_ERROR ->
  let res := consume_EntityMonitoringState ctx msg clk t in
  error_count (m_vs (fst res)) = (ems_ccount msg + ems_ecount msg) mod 256 /\
  if (ems_ccount msg + ems_ecount msg) mod 256 =? 0
  then op_mode (m_vs (fst res)) = VS_SERVICE /\
       m_switch_time (fst res) = (-1)%Q /\
       snd res = [MVehicleState (m_vs (fst res))]
  else op_mode (m_vs (fst res)) = VS_ERROR /\ snd res = [].
Proof.
  intro Herr.
  destruct (recordEntityErrors_spec msg clk t) as (Ho & _ & _ & _ & Hvs).
  unfold consume_EntityMonitoringState, andThen. cbv zeta.
  destruct (recordEntityErrors msg clk t) as [t1 o1]. cbn in Ho, Hvs.
  subst o1. destruct_task t1. cbn in Hvs.
  injection Hvs as Hom Hec _ _ _ _ _ _ _ _. rewrite Herr in Hom. subst om.
  rewrite <- Hec. clear Hec. act_unfold. unfold entityError. cbn.
  destruct (ec =? 0) eqn:Hz; cbn; repeat split; reflexivity.
Qed.

(** X12.  In SERVICE, and in EXTERNAL or MANEUVER when no non-overridable
    loop is enabled and no Teleoperation runs, an EntityMonitoringState that
    leaves a critical error ([entityError] after recording) resets the task
    and moves it to ERROR: StopManeuver when in MANEUVER, IdleManeuver and
    the new state are dispatched, loops and safe plan are cleared.  A report
    that leaves no critical error is recorded and nothing else. *)
Theorem critical_entity_error_resets
    (msg : EntityMonitoringState) (clk : Clock) (t : Task) :
  op_mode (m_vs t) = VS_SERVICE \/
  ((op_mode (m_vs t) = VS_EXTERNAL \/ op_mode (m_vs t) = VS_MANEUVER)
   /\ nonOverridableLoops ctx t = false /\ teleoperationOn ctx t = false) ->
  let t1 := fst (recordEntityErrors msg clk t) in
  let res := consume_EntityMonitoringState ctx msg clk t in
  if entityError t1
  then snd res = stop_if_maneuvering t
                 ++ [MIdleManeuver; MVehicleState (m_vs (fst res))] /\
       op_mode (m_vs (fst res)) = VS_ERROR /\
       control_loops (m_vs (fst res)) = 0 /\
       m_in_safe_plan (fst res) = false /\
       m_switch_time (fst res) = (-1)%Q
  else res = (t1, []).
Proof.
  intros Hmode.
  destruct (recordEntityErrors_guards msg clk t) as (Hno & Htele & Hom & _).
  destruct (recordEntityErrors_spec msg clk t) as (Ho & _).
  unfold consume_EntityMonitoringState, andThen, stop_if_maneuvering.
  cbv zeta. rewrite <- Hom.
  destruct (recordEntityErrors msg clk t) as [t1 o1].
  cbn [fst snd] in *. subst o1.
  assert (Hmode1 :
    op_mode (m_vs t1) = VS_SERVICE \/
    ((op_mode (m_vs t1) = VS_EXTERNAL \/ op_mode (m_vs t1) = VS_MANEUVER)
     /\ nonOverridableLoops ctx t1 = false /\ teleoperationOn ctx t1 = false)).
  { rewrite Hom, Hno, Htele. exact Hmode. }
  clear Hmode Hno Htele Hom t.
  destruct (entityError t1) eqn:Hcrit.
  - unfold whenA, ifA, errorMode, externalMode, maneuverMode, calibrationMode,
      modeIs, nop.
    destruct Hmode1 as [Hs | [[He | Hm] [Hno Htele]]].
    + rewrite Hs, Hcrit. cbn. clear Hcrit. act_unfold. destruct_task t1.
      cbn in Hs. subst om. cbn. repeat split; reflexivity.
    + rewrite He, Hcrit, Hno, Htele. cbn. clear Hcrit Hno Htele.
      act_unfold. destruct_task t1.
      cbn in He. subst om. cbn. repeat split; reflexivity.
    + rewrite Hm, Hcrit, Hno, Htele. cbn. clear Hcrit Hno Htele.
      act_unfold. destruct_task t1.
      cbn in Hm. subst om. cbn. repeat split; reflexivity.
  - unfold whenA, ifA, errorMode, externalMode, maneuverMode, calibrationMode,
      modeIs, nop.
    destruct Hmode1 as [Hs | [[He | Hm] _]].
    + rewrite Hs, Hcrit. reflexivity.
    + rewrite He, Hcrit. reflexivity.
    + rewrite Hm, Hcrit. reflexivity.
Qed.

(** X13.  A PlanControl START request sets the safe-plan flag to whether its
    IGNORE_ERRORS flag is set.  With a non-empty [safe_ents], a following
    report of errors none of whose names is in [safe_ents] leaves a vehicle
    in SERVICE there when the flag is set and takes it to ERROR when it is
    not. *)
Theorem safe_plan_filters_errors
    (pc : PlanControl) (msg : EntityMonitoringState) (clk : Clock)
    (t : Task) :
  op_mode (m_vs t) = VS_SERVICE ->
  pc_type pc = PC_REQUEST ->
  pc_op pc = PC_START ->
  safe_ents (m_args t) <> [] ->
  (ems_ccount msg + ems_ecount msg) mod 256 <> 0 ->
  anyRelevant (split (reportedNames msg) ",") (safe_ents (m_args t)) = false ->
  let t1 := fst (consume_PlanControl ctx pc t) in
  let res := consume_EntityMonitoringState ctx msg clk t1 in
  m_in_safe_plan t1
  = negb (Z.land (pc_flags pc) (FLG_IGNORE_ERRORS ctx) =? 0) /\
  op_mode (m_vs (fst res))
  = (if m_in_safe_plan t1 then VS_SERVICE else VS_ERROR).
Proof.
  intros Hs Hty Hop Hsafe Hcount Hnames.
  assert (Hplan : fst (consume_PlanControl ctx pc t)
                  = set_in_safe_plan
                      (negb (Z.land (pc_flags pc) (FLG_IGNORE_ERRORS ctx) =? 0))
                      t).
  { unfold consume_PlanControl, whenA, ifA, modify. rewrite Hty, Hop.
    destruct (Z.land (pc_flags pc) (FLG_IGNORE_ERRORS ctx) =? 0); reflexivity. }
  cbv zeta. rewrite Hplan. clear Hplan.
  set (plan := negb (Z.land (pc_flags pc) (FLG_IGNORE_ERRORS ctx) =? 0)).
  clearbody plan.
  split; [destruct t; reflexivity|].
  destruct (recordEntityErrors_spec msg clk (set_in_safe_plan plan t))
    as (Ho & _ & Hsp & Har & Hvs).
  unfold consume_EntityMonitoringState, andThen.
  destruct (recordEntityErrors msg clk (set_in_safe_plan plan t)) as [t2 o2].
  cbn [fst snd] in *. subst o2.
  assert (Hcrit : entityError t2 = negb plan).
  { unfold entityError. rewrite Hvs, Hsp, Har. cbn.
    apply Z.eqb_neq in Hcount. rewrite Hcount. cbn.
    destruct t as [sw sp et vs ar]. cbn in *.
    destruct (Z.of_nat (List.length (safe_ents ar)) =? 0) eqn:Hlen.
    - apply length_zero_nil in Hlen. contradiction.
    - cbn. destruct plan; [exact Hnames|reflexivity]. }
  assert (Hom : op_mode (m_vs t2) = VS_SERVICE).
  { rewrite Hvs. destruct t as [sw sp et vs ar]. exact Hs. }
  assert (Hplan : m_in_safe_plan (set_in_safe_plan plan t) = plan)
    by (destruct t; reflexivity).
  rewrite Hplan. clear Hvs Hsp Har Hplan.
  unfold whenA, ifA, errorMode, externalMode, maneuverMode, calibrationMode,
    modeIs, nop.
  rewrite Hom, Hcrit. cbn.
  destruct plan; cbn; [exact Hom|].
  clear Hcrit. act_unfold. destruct_task t2. cbn in Hom. subst om. reflexivity.
Qed.

End EntityErrors.

(** The theorem at the vehicle under teleoperation and a critical GPS
    error. *)
Lemma entity_error_overridden_witness :
  let msg := critical 1 "GPS" 1000002 in
  let res := consume_EntityMonitoringState imc msg (clock_at 2) teleoperated in
  res = (fst (recordEntityErrors msg (clock_at 2) teleoperated), []) /\
  op_mode (m_vs (fst res)) = op_mode (m_vs teleoperated) /\
  control_loops (m_vs (fst res)) = control_loops (m_vs teleoperated).
Proof.
  apply (entity_error_overridden imc (critical 1 "GPS" 1000002) (clock_at 2)
           teleoperated).
  - left. reflexivity.
  - left. reflexivity.
Defined.

(** The theorem at the faulted vehicle and a report of no error. *)
Lemma entity_errors_cleared_in_error_witness :
  let res := consume_EntityMonitoringState imc (critical 0 "" 1000002)
               (clock_at 2) faulted in
  error_count (m_vs (fst res)) = 0 /\
  op_mode (m_vs (fst res)) = VS_SERVICE /\
  m_switch_time (fst res) = (-1)%Q /\
  snd res = [MVehicleState (m_vs (fst res))].
Proof.
  exact (entity_errors_cleared_in_error imc (critical 0 "" 1000002)
           (clock_at 2) faulted eq_refl).
Defined.

(** The theorem at the booted vehicle and a critical GPS error. *)
Lemma critical_entity_error_resets_witness :
  let res := consume_EntityMonitoringState imc (critical 1 "GPS" 1000002)
               (clock_at 2) booted in
  snd res = [MIdleManeuver; MVehicleState (m_vs (fst res))] /\
  op_mode (m_vs (fst res)) = VS_ERROR /\
  control_loops (m_vs (fst res)) = 0 /\
  m_in_safe_plan (fst res) = false /\
  m_switch_time (fst res) = (-1)%Q.
Proof.
  apply (critical_entity_error_resets imc (critical 1 "GPS" 1000002)
           (clock_at 2) booted).
  left. reflexivity.
Defined.

(** The theorem at the booted vehicle, whose whitelist is GPS: a plan
    ignoring errors, then an IMU error. *)
Lemma safe_plan_filters_errors_witness :
  let t1 := fst (consume_PlanControl imc
                   (mkPlanControl PC_REQUEST PC_START 0x2) booted) in
  let res := consume_EntityMonitoringState imc (critical 1 "IMU" 1000002)
               (clock_at 2) t1 in
  m_in_safe_plan t1 = true /\ op_mode (m_vs (fst res)) = VS_SERVICE.
Proof.
  apply (safe_plan_filters_errors imc (mkPlanControl PC_REQUEST PC_START 0x2)
           (critical 1 "IMU" 1000002) (clock_at 2) booted);
    try reflexivity; discriminate.
Defined.

(** ** ControlLoops arbitration by mode *)

Section LoopsByMode.

Variable ctx : Context.

(** X14.  In MANEUVER and in CALIBRATION a ControlLoops message only updates
    [control_loops] (or-ing the mask in, or and-ing its complement): the
    mode and every other field stay as they are and nothing is
    dispatched. *)
Theorem control_loops_ignored_in_timed_modes
    (msg : ControlLoops) (clk : Clock) (t : Task) :
  op_mode (m_vs t) = VS_MANEUVER \/ op_mode (m_vs t) = VS_CALIBRATION ->
  consume_ControlLoops ctx msg clk t
  = (with_vs (set_control_loops
                match cl_enable msg with
                | CL_ENABLE => Z.lor (control_loops (m_vs t)) (cl_mask msg)
                | CL_DISABLE =>
                    Z.land (control_loops (m_vs t)) (not32 (cl_mask msg))
                end) t,
     []).
Proof.
  intro Hmode. act_unfold. destruct_task t. destruct msg as [en mask].
  cbn in Hmode.
  destruct Hmode as [-> | ->]; destruct en; cbn;
    repeat (case_if; cbn); reflexivity.
Qed.

(** X15.  In EXTERNAL a disable that leaves some loop enabled changes
    nothing else; the disable that clears the last loop leaves EXTERNAL and
    dispatches the state: for SERVICE, or for ERROR when a critical entity
    error is pending. *)
Theorem last_loop_disabled_leaves_external
    (mask : Z) (clk : Clock) (t : Task) :
  op_mode (m_vs t) = VS_EXTERNAL ->
  control_loops (m_vs t) <> 0 ->
  let res := consume_ControlLoops ctx (mkControlLoops CL_DISABLE mask) clk t in
  control_loops (m_vs (fst res))
  = Z.land (control_loops (m_vs t)) (not32 mask) /\
  if Z.land (control_loops (m_vs t)) (not32 mask) =? 0
  then op_mode (m_vs (fst res))
         = (if entityError t then VS_ERROR else VS_SERVICE) /\
       snd res = [MVehicleState (m_vs (fst res))]
  else op_mode (m_vs (fst res)) = VS_EXTERNAL /\ snd res = [].
Proof.
  intros Hmode Hcl. act_unfold. destruct_task t. cbn in Hmode, Hcl.
  subst om. apply Z.eqb_neq in Hcl. unfold entityError. cbn. rewrite Hcl. cbn.
  destruct (Z.land cl (not32 mask) =? 0); cbn;
    repeat (case_if; cbn); repeat split; reflexivity.
Qed.

(** X16.  The enable that makes an empty loop set non-empty takes a vehicle
    in SERVICE to EXTERNAL.  In ERROR it does so only when the mask holds a
    TELEOPERATION or NO_OVERRIDE bit; any other mask is undone by a reset
    (loops back to zero, IdleManeuver dispatched, the vehicle still in
    ERROR).  In the other modes the mask is stored and nothing else
    happens. *)
Theorem first_loop_enabled
    (mask : Z) (clk : Clock) (t : Task) :
  control_loops (m_vs t) = 0 ->
  mask <> 0 ->
  let res := consume_ControlLoops ctx (mkControlLoops CL_ENABLE mask) clk t in
  match op_mode (m_vs t) with
  | VS_SERVICE =>
      op_mode (m_vs (fst res)) = VS_EXTERNAL /\
      control_loops (m_vs (fst res)) = mask /\
      snd res = [MVehicleState (m_vs (fst res))]
  | VS_ERROR =>
      if Z.land mask (Z.lor (CL_TELEOPERATION ctx) (CL_NO_OVERRIDE ctx)) =? 0
      then op_mode (m_vs (fst res)) = VS_ERROR /\
           control_loops (m_vs (fst res)) = 0 /\
           m_in_safe_plan (fst res) = false /\
           snd res = [MIdleManeuver]
      else op_mode (m_vs (fst res)) = VS_EXTERNAL /\
           control_loops (m_vs (fst res)) = mask /\
           snd res = [MVehicleState (m_vs (fst res))]
  | _ =>
      res = (with_vs (set_control_loops mask) t, [])
  end.
Proof.
  intros Hcl Hmask. act_unfold. destruct_task t. cbn in Hcl. subst cl.
  apply Z.eqb_neq in Hmask. unfold nonOverridableLoops. cbn.
  destruct om; cbn; rewrite Hmask; cbn; try reflexivity;
    repeat (case_if; cbn); repeat split; reflexivity.
Qed.

End LoopsByMode.

(** The theorem at the vehicle executing Goto and the yaw loop. *)
Lemma control_loops_ignored_in_timed_modes_witness :
  consume_ControlLoops imc (mkControlLoops CL_ENABLE 0x40) (clock_at 2)
    maneuvering
  = (with_vs (set_control_loops 0x40) maneuvering, []).
Proof.
  apply (control_loops_ignored_in_timed_modes imc
           (mkControlLoops CL_ENABLE 0x40) (clock_at 2) maneuvering).
  left. reflexivity.
Defined.

(** The theorem at the vehicle under teleoperation. *)
Lemma last_loop_disabled_leaves_external_witness :
  let res := consume_ControlLoops imc (mkControlLoops CL_DISABLE 0x2)
               (clock_at 2) teleoperated in
  control_loops (m_vs (fst res)) = 0 /\
  op_mode (m_vs (fst res)) = VS_SERVICE /\
  snd res = [MVehicleState (m_vs (fst res))].
Proof.
  apply (last_loop_disabled_leaves_external imc 0x2 (clock_at 2)
           teleoperated); [reflexivity|discriminate].
Defined.

(** The theorem at the faulted vehicle and the path loop, which is
    overridable. *)
Lemma first_loop_enabled_witness :
  let res := consume_ControlLoops imc (mkControlLoops CL_ENABLE 0x1)
               (clock_at 2) faulted in
  op_mode (m_vs (fst res)) = VS_ERROR /\
  control_loops (m_vs (fst res)) = 0 /\
  m_in_safe_plan (fst res) = false /\
  snd res = [MIdleManeuver].
Proof.
  apply (first_loop_enabled imc 0x1 (clock_at 2) faulted);
    [reflexivity|discriminate].
Defined.

(** ** What every handler dispatches *)

Section Dispatches.

Variable ctx : Context.

Ltac published_by_cases om :=
  destruct om; cbn; repeat (case_if; cbn);
  (split; [first [left; reflexivity | right; reflexivity]
          |first [left; reflexivity | right; reflexivity]]).

(** X17.  Every handler and tick that changes [op_mode] dispatches a
    VehicleState, and the last VehicleState a handler or tick dispatches
    always reports the mode the task is left in. *)
Theorem transition_publishes_state (clk : Clock) (ev : Event) (t : Task) :
  let res := step ctx clk ev t in
  (op_mode (m_vs (fst res)) = op_mode (m_vs t)
   \/ last_published (snd res) = Some (op_mode (m_vs (fst res)))) /\
  (last_published (snd res) = None
   \/ last_published (snd res) = Some (op_mode (m_vs (fst res)))).
Proof.
  cbv zeta. destruct ev as [|msg|msg|msg|msg|cmd|]; cbn [step].
  - act_unfold. destruct_task t. unfold nonOverridableLoops, last_published.
    published_by_cases om.
  - act_unfold. destruct_task t. destruct msg as [en mask].
    unfold nonOverridableLoops, last_published.
    destruct en; published_by_cases om.
  - unfold consume_EntityMonitoringState, andThen.
    destruct (recordEntityErrors_spec msg clk t) as (Ho & _ & _ & _ & Hvs).
    destruct (recordEntityErrors msg clk t) as [t1 o1]. cbn in Ho, Hvs.
    subst o1.
    assert (Hom : op_mode (m_vs t1) = op_mode (m_vs t))
      by (rewrite Hvs; reflexivity).
    rewrite <- Hom. clear Hom Hvs t.
    act_unfold. destruct_task t1.
    unfold nonOverridableLoops, teleoperationOn, maneuverIs, last_published.
    published_by_cases om.
  - act_unfold. destruct_task t. destruct msg as [src ts st eta info].
    unfold nonOverridableLoops, last_published.
    destruct st; published_by_cases om.
  - act_unfold. destruct_task t. unfold last_published.
    published_by_cases om.
  - act_unfold. destruct_task t. destruct cmd as [src ent ty rid cmd man].
    unfold nonOverridableLoops, last_published.
    destruct ty, cmd, man; published_by_cases om.
  - act_unfold. destruct_task t. unfold nonOverridableLoops, last_published.
    published_by_cases om.
Qed.

(** X6.  A request is answered by exactly one reply, dispatched last and
    routed to the requester (its source, source entity and request id, with
    the command echoed).  The reply is FAILURE exactly for an EXEC_MANEUVER
    without maneuver and for an EXEC_MANEUVER or CALIBRATE received in
    EXTERNAL, and then the task is unchanged; after a SUCCESS the task is
    not in EXTERNAL.  For a CALIBRATE the two conversions of
    [startCalibration] are taken to be defined. *)
Theorem request_answered_once
    (cmd : VehicleCommand) (clk : Clock) (t : Task) :
  vc_type cmd = VC_REQUEST ->
  (vc_command cmd = VC_CALIBRATE -> calibration_defined t clk) ->
  let res := consume_VehicleCommand ctx cmd clk t in
  exists info,
    let reply :=
      mkReply (vc_source cmd) (vc_source_entity cmd)
        (if refused cmd t then VC_FAILURE else VC_SUCCESS)
        (vc_command cmd) (vc_request_id cmd) info in
    replies (snd res) = [reply] /\
    List.last (snd res) MStopManeuver = MVehicleCommand reply /\
    (if refused cmd t then fst res = t
     else op_mode (m_vs (fst res)) <> VS_EXTERNAL).
Proof.
  intros Hty _. unfold refused. act_unfold.
  destruct cmd as [src ent ty rid cmd man]. cbn in Hty. subst ty.
  destruct_task t. unfold nonOverridableLoops.
  destruct cmd, man, om; cbn;
    repeat (case_if; cbn);
    eexists; (split; [reflexivity|]); (split; [reflexivity|]);
    first [reflexivity | discriminate].
Qed.

End Dispatches.

(** The theorem at the vehicle under teleoperation and a CALIBRATE
    request. *)
Lemma request_answered_once_witness :
  let cmd := request VC_CALIBRATE None in
  let res := consume_VehicleCommand imc cmd (clock_at 2) teleoperated in
  exists info,
    let reply := mkReply 7 8 VC_FAILURE VC_CALIBRATE 9 info in
    replies (snd res) = [reply] /\
    List.last (snd res) MStopManeuver = MVehicleCommand reply /\
    fst res = teleoperated.
Proof.
  apply (request_answered_once imc (request VC_CALIBRATE None) (clock_at 2)
           teleoperated eq_refl).
  intros _. repeat split; vm_compute; discriminate.
Defined.

(** ** Invariants of the reachable states *)

Lemma Forall_trivial {A : Type} (l : list A) : Forall (fun _ => True) l.
Proof. induction l; constructor; auto. Qed.

Section Reachable.

Variable ctx : Context.

Ltac idle_by_cases om :=
  destruct om; cbn; intros H; repeat (case_if; cbn);
  first [exact I | assumption | reflexivity].

Lemma step_timer_idle (clk : Clock) (ev : Event) (t : Task) :
  timer_idle t -> timer_idle (fst (step ctx clk ev t)).
Proof.
  destruct ev as [|msg|msg|msg|msg|cmd|]; cbn [step].
  - unfold timer_idle. act_unfold. destruct_task t.
    unfold nonOverridableLoops. idle_by_cases om.
  - unfold timer_idle. act_unfold. destruct_task t.
    destruct msg as [en mask]. unfold nonOverridableLoops.
    destruct en; idle_by_cases om.
  - unfold consume_EntityMonitoringState, andThen. intro H.
    destruct (recordEntityErrors_spec msg clk t) as (_ & Hsw & _ & _ & Hvs).
    destruct (recordEntityErrors msg clk t) as [t1 o1]. cbn in Hsw, Hvs.
    assert (H1 : timer_idle t1).
    { unfold timer_idle in *. rewrite Hvs, Hsw. exact H. }
    clear H Hvs Hsw t. revert H1.
    unfold timer_idle. act_unfold. destruct_task t1.
    unfold nonOverridableLoops, teleoperationOn, maneuverIs.
    idle_by_cases om.
  - unfold timer_idle. act_unfold. destruct_task t.
    destruct msg as [src ts st eta info].
    destruct st; idle_by_cases om.
  - unfold timer_idle. act_unfold. destruct_task t. idle_by_cases om.
  - unfold timer_idle. act_unfold. destruct_task t.
    unfold nonOverridableLoops.
    destruct cmd as [src ent ty rid cmd man].
    destruct ty, cmd, man; idle_by_cases om.
  - unfold timer_idle. act_unfold. destruct_task t.
    unfold nonOverridableLoops. idle_by_cases om.
Qed.

(** X18.  In every state reached from the initial state, EXTERNAL is backed
    by an enabled control loop and ERROR by a pending entity error:
    [op_mode = EXTERNAL] implies [control_loops <> 0] and [op_mode = ERROR]
    implies [error_count <> 0]. *)
Theorem mode_grounded_reachable
    (args : Arguments) (clk0 : Clock) (evs : list (Clock * Event)) :
  let t := state_after ctx args clk0 evs in
  (op_mode (m_vs t) = VS_EXTERNAL -> control_loops (m_vs t) <> 0) /\
  (op_mode (m_vs t) = VS_ERROR -> error_count (m_vs t) <> 0).
Proof.
  apply (run_preserves ctx mode_grounded (fun _ _ => True)).
  - intros clk ev t _. apply step_grounded.
  - apply Forall_trivial.
  - split; discriminate.
Qed.

(** X19.  In every state reached from the initial state that is not in
    MANEUVER, the maneuver fields hold their idle values and no flag is set:
    [maneuver_type = 0xFFFF], [maneuver_eta = 0xFFFF] and [flags = 0]; in
    particular MANEUVER_DONE does not survive the return to SERVICE. *)
Theorem maneuver_fields_idle_reachable
    (args : Arguments) (clk0 : Clock) (evs : list (Clock * Event)) :
  let t := state_after ctx args clk0 evs in
  op_mode (m_vs t) = VS_MANEUVER \/
  (maneuver_type (m_vs t) = 0xFFFF /\ maneuver_eta (m_vs t) = 0xFFFF
   /\ flags (m_vs t) = 0).
Proof.
  cbv zeta.
  assert (H : maneuver_fields_idle ctx (state_after ctx args clk0 evs)).
  { apply (run_preserves ctx (maneuver_fields_idle ctx) (fun _ _ => True)).
    - intros clk ev t _. apply step_maneuver_fields_idle.
    - apply Forall_trivial.
    - repeat split; reflexivity. }
  unfold maneuver_fields_idle in H.
  destruct (op_mode (m_vs (state_after ctx args clk0 evs)));
    first [left; reflexivity | right; exact H].
Qed.

(** X20.  The switch timer follows the mode in every state reached from the
    initial state (the monotonic clock never reading below zero): it is
    armed throughout CALIBRATION; in MANEUVER it is armed together with the
    MANEUVER_DONE flag and unarmed while the flags are clear; in SERVICE,
    ERROR and EXTERNAL it is unarmed. *)
Theorem switch_timer_reachable
    (args : Arguments) (clk0 : Clock) (evs : list (Clock * Event)) :
  Forall (fun ce => clock_started (fst ce)) evs ->
  switch_timer_follows_mode ctx (state_after ctx args clk0 evs).
Proof.
  intro Hevs.
  apply (run_preserves ctx
           (fun t => maneuver_fields_idle ctx t
                     /\ switch_timer_follows_mode ctx t)
           (fun clk _ => clock_started clk)).
  - intros clk ev t Hclk [Hf Ht]. split.
    + apply step_maneuver_fields_idle. exact Hf.
    + apply step_switch_timer; assumption.
  - exact Hevs.
  - split; [repeat split; reflexivity|reflexivity].
Qed.

(** X21.  In every state reached from the initial state in SERVICE, ERROR or
    EXTERNAL, the periodic tick re-emits the vehicle state and does nothing
    else. *)
Theorem tick_idle_outside_timed_modes
    (args : Arguments) (clk0 clk : Clock) (evs : list (Clock * Event)) :
  let t := state_after ctx args clk0 evs in
  op_mode (m_vs t) = VS_CALIBRATION \/ op_mode (m_vs t) = VS_MANEUVER \/
  task ctx clk t = (t, [MVehicleState (m_vs t)]).
Proof.
  cbv zeta.
  assert (H : timer_idle (state_after ctx args clk0 evs)).
  { apply (run_preserves ctx timer_idle (fun _ _ => True)).
    - intros c ev t _. apply step_timer_idle.
    - apply Forall_trivial.
    - reflexivity. }
  unfold timer_idle in H.
  destruct (op_mode (m_vs (state_after ctx args clk0 evs)));
    first [left; reflexivity | right; left; reflexivity | right; right].
  all: apply task_unarmed; rewrite H; reflexivity.
Qed.

End Reachable.

(** The theorem on a run of the booted vehicle: Goto accepted at time 13 and
    reported done at time 20. *)
Lemma switch_timer_reachable_witness :
  switch_timer_follows_mode imc
    (state_after imc gps_args (clock_at 0)
       [(clock_at 13, EvVehicleCommand (request VC_EXEC_MANEUVER (Some Goto)));
        (clock_at 20, EvManeuverControlState (own_mcs imc MCS_DONE 1000020))]).
Proof.
  apply switch_timer_reachable.
  repeat constructor; unfold clock_started; vm_compute; discriminate.
Defined.
